(** * mcp_logger: the JSON-lines activity and session logs

    A shallow embedding of [src/mcp_logger.py]: the tool-call recorder
    ([log_tool_call], [_write_log]), the session-event recorder
    ([log_session_event]), the filtered history query
    ([get_session_history]) and the orphan detector
    ([get_orphan_sessions]).

    Python values are restricted to what [json.loads] can produce; exceptions
    are an explicit [outcome]; the two log files, the clock and stderr form an
    explicit [world]. *)

From Stdlib Require Import List ZArith QArith Bool String Ascii Lia.
Import ListNotations.
Local Open Scope string_scope.
Local Open Scope list_scope.
Local Open Scope Z_scope.

Set Warnings "-register-all".

(** ** Python values *)

Module Py.

(** A float as [json.loads] yields it: a finite double is carried by its exact
    rational value, [Infinity], [-Infinity] and [NaN] are the three constants
    of [json.decoder]. *)
Inductive pyfloat :=
| FFin (q : Q)
| FInf (negative : bool)
| FNaN.

Inductive json :=
| JNull                                   (* None *)
| JBool (b : bool)
| JInt (z : Z)
| JFloat (f : pyfloat)
| JStr (s : string)
| JList (l : list json)
| JDict (d : list (string * json)).       (* insertion-ordered, keys unique *)

Inductive exn :=
| JSONDecodeError
| AttributeError
| TypeError
| OSError.                                (* any other Exception while reading *)

Inductive outcome (A : Type) :=
| Ok (a : A)
| Raise (e : exn).

Arguments Ok {A} a.
Arguments Raise {A} e.

Definition bind {A B} (c : outcome A) (k : A -> outcome B) : outcome B :=
  match c with
  | Ok a => k a
  | Raise e => Raise e
  end.

Notation "x <- c ;; k" := (bind c (fun x => k))
  (at level 61, c at next level, right associativity).

(** [try: c  except JSONDecodeError: h] *)
Definition except_JSONDecodeError {A} (c : outcome A) (h : outcome A) : outcome A :=
  match c with
  | Raise JSONDecodeError => h
  | _ => c
  end.

(** [bool(v)] *)
Definition truthy (v : json) : bool :=
  match v with
  | JNull => false
  | JBool b => b
  | JInt z => negb (z =? 0)
  | JFloat (FFin q) => negb (Qeq_bool q 0%Q)
  | JFloat _ => true
  | JStr s => negb (s =? "")%string
  | JList l => match l with [] => false | _ => true end
  | JDict d => match d with [] => false | _ => true end
  end.

(** [v == s] for a [str] [s]: only an equal [str] compares equal. *)
Definition eq_str (v : json) (s : string) : bool :=
  match v with
  | JStr s' => (s' =? s)%string
  | _ => false
  end.

(** [v in xs] for a sequence [xs] of [str]. *)
Definition in_strs (v : json) (xs : list string) : bool :=
  existsb (eq_str v) xs.

(** [k in d], [d.get(k, default)] and [d[k] = v] on a dict. *)
Definition contains {V} (d : list (string * V)) (k : string) : bool :=
  existsb (fun kv => (fst kv =? k)%string) d.

Fixpoint dict_get {V} (d : list (string * V)) (k : string) (default : V) : V :=
  match d with
  | [] => default
  | (k', v) :: d' => if (k' =? k)%string then v else dict_get d' k default
  end.

Fixpoint dict_set {V} (d : list (string * V)) (k : string) (v : V) : list (string * V) :=
  match d with
  | [] => [(k, v)]
  | (k', v') :: d' =>
      if (k' =? k)%string then (k', v) :: d' else (k', v') :: dict_set d' k v
  end.

Definition keys {V} (d : list (string * V)) : list string := map fst d.

(** [entry.get(k)]: only a dict has the method. *)
Definition get (entry : json) (k : string) : outcome json :=
  match entry with
  | JDict d => Ok (dict_get d k JNull)
  | _ => Raise AttributeError
  end.

(** [v[:n]] for [n >= 0]: defined on [str] and [list] only. *)
Definition slice_to (v : json) (n : nat) : outcome json :=
  match v with
  | JStr s => Ok (JStr (substring 0 n s))
  | JList l => Ok (JList (firstn n l))
  | _ => Raise TypeError
  end.

(** [xs[start:]] *)
Definition slice_from {A} (xs : list A) (start : Z) : list A :=
  let len := Z.of_nat (List.length xs) in
  let lo := if start <? 0 then Z.max 0 (start + len) else Z.min start len in
  skipn (Z.to_nat lo) xs.

(** *** Hashing and key equality

    Dict keys are compared with [==] (after [is]): [True == 1 == 1.0], a
    [str] equals only the same [str], [None] only [None]; the one [NaN]
    object of [json.decoder] is found by identity.  Lists and dicts are
    unhashable. *)
Definition hashable (v : json) : bool :=
  match v with
  | JList _ | JDict _ => false
  | _ => true
  end.

Definition number (v : json) : option pyfloat :=
  match v with
  | JBool b => Some (FFin (if b then 1%Q else 0%Q))
  | JInt z => Some (FFin (inject_Z z))
  | JFloat f => Some f
  | _ => None
  end.

Definition float_eqb (a b : pyfloat) : bool :=
  match a, b with
  | FFin p, FFin q => Qeq_bool p q
  | FInf s, FInf t => Bool.eqb s t
  | FNaN, FNaN => true
  | _, _ => false
  end.

Definition key_eq1 (a b : json) : bool :=
  match a, b with
  | JNull, JNull => true
  | JStr s, JStr t => (s =? t)%string
  | _, _ =>
      match number a, number b with
      | Some x, Some y => float_eqb x y
      | _, _ => false
      end
  end.

(** The loops of the module: the body runs on each element in turn; when it
    raises, the loop stops with the state as it was before that element (in
    every loop of the module the only mutation is the body's last statement). *)
Fixpoint for_each {A S} (body : A -> S -> outcome S) (xs : list A) (s : S)
  : S * option exn :=
  match xs with
  | [] => (s, None)
  | x :: xs' =>
      match body x s with
      | Ok s' => for_each body xs' s'
      | Raise e => (s, Some e)
      end
  end.

End Py.

Import Py.

(** ** The log files *)

Inductive path := LOG_FILE | SESSION_LOG_FILE.

(** One line of a log file, by what the readers make of it:
    [Blank] when [line.strip()] is empty, [Malformed] when [json.loads(line)]
    raises [JSONDecodeError], [Parsed v] when it returns [v], and [Unreadable]
    when reading or decoding the line raises any other exception. *)
Inductive line :=
| Blank
| Malformed
| Parsed (v : json)
| Unreadable.

Definition is_blank (ln : line) : bool :=
  match ln with Blank => true | _ => false end.

Definition json_loads (ln : line) : outcome json :=
  match ln with
  | Parsed v => Ok v
  | Unreadable => Raise OSError
  | _ => Raise JSONDecodeError
  end.

(** What the writers see and change: the content of each file ([None] when it
    does not exist), whether appending to it fails (with the exception's
    text), the clock, and what was written to stderr. *)
Record world := mkWorld {
  files : path -> option (list line);
  append_error : path -> option string;
  now_isoformat : string;
  stderr : list string
}.

Definition path_eqb (p q : path) : bool :=
  match p, q with
  | LOG_FILE, LOG_FILE | SESSION_LOG_FILE, SESSION_LOG_FILE => true
  | _, _ => false
  end.

Definition append_line (w : world) (p : path) (ln : line) : world :=
  mkWorld
    (fun q => if path_eqb q p
              then Some (match files w p with Some ls => ls ++ [ln] | None => [ln] end)
              else files w q)
    (append_error w) (now_isoformat w) (stderr w).

Definition write_stderr (w : world) (msg : string) : world :=
  mkWorld (files w) (append_error w) (now_isoformat w) (stderr w ++ [msg]).

Definition newline : string := String (ascii_of_nat 10) EmptyString.

Definition of_opt_str (o : option string) : json :=
  match o with Some s => JStr s | None => JNull end.

Definition of_opt_int (o : option Z) : json :=
  match o with Some z => JInt z | None => JNull end.

Definition of_opt_float (o : option pyfloat) : json :=
  match o with Some f => JFloat f | None => JNull end.

Definition is_None {A} (o : option A) : bool :=
  match o with None => true | Some _ => false end.

(** ** Writers *)

Definition _write_log (filepath : path) (entry : list (string * json)) (w : world)
  : world * outcome unit :=
  let entry := dict_set entry "logged_at" (JStr (now_isoformat w)) in
  match append_error w filepath with
  | None => (append_line w filepath (Parsed (JDict entry)), Ok tt)
  | Some e =>
      (write_stderr w ("[mcp_logger] Failed to write log: " ++ e ++ newline)%string,
       Ok tt)
  end.

(** The dict literal of [log_tool_call]; only the preview's slice can raise. *)
Definition tool_call_entry (mcp_name tool_name : string)
    (arguments : list (string * json))
    (connection_name conversation_id error : option string)
    (duration_ms : option Z) : outcome (list (string * json)) :=
  command_preview <-
    (if contains arguments "command"
     then slice_to (dict_get arguments "command" (JStr "")) 100
     else Ok JNull) ;;
  Ok [ ("type", JStr "tool_call");
       ("mcp", JStr mcp_name);
       ("tool", JStr tool_name);
       ("connection", of_opt_str connection_name);
       ("conversation_id", of_opt_str conversation_id);
       ("arguments",
        JDict (filter (fun kv => negb (fst kv =? "command")%string) arguments));
       ("command_preview", command_preview);
       ("duration_ms", of_opt_int duration_ms);
       ("success", JBool (is_None error));
       ("error", of_opt_str error) ].

Definition log_tool_call (mcp_name tool_name : string)
    (arguments : list (string * json))
    (connection_name conversation_id result error : option string)
    (duration_ms : option Z) (w : world) : world * outcome unit :=
  match tool_call_entry mcp_name tool_name arguments connection_name
          conversation_id error duration_ms with
  | Ok entry => _write_log LOG_FILE entry w
  | Raise e => (w, Raise e)
  end.

Definition log_session_event (event tenant module : string)
    (conversation_id : option string)
    (details : option (list (string * json)))
    (duration_seconds : option pyfloat) (w : world) : world * outcome unit :=
  let entry :=
    [ ("type", JStr "session_event");
      ("event", JStr event);
      ("tenant", JStr tenant);
      ("module", JStr module);
      ("conversation_id", of_opt_str conversation_id);
      ("details", JDict (match details with Some d => d | None => [] end));
      ("duration_seconds", of_opt_float duration_seconds) ] in
  _write_log SESSION_LOG_FILE entry w.

(** ** Readers *)

(** One filter test of [get_session_history]:
    [flt and entry.get(field) != flt]. *)
Definition filter_rejects (flt : option string) (field : string) (entry : json)
  : outcome bool :=
  match flt with
  | None => Ok false
  | Some s =>
      if (s =? "")%string then Ok false
      else v <- get entry field ;; Ok (negb (eq_str v s))
  end.

(** The body of the scan loop of [get_session_history]; the state is
    [results]. *)
Definition history_body (tenant module conversation_id event : option string)
    (ln : line) (results : list json) : outcome (list json) :=
  if is_blank ln then Ok results
  else
    except_JSONDecodeError
      (entry <- json_loads ln ;;
       r <- filter_rejects tenant "tenant" entry ;;
       if r : bool then Ok results else
       r <- filter_rejects module "module" entry ;;
       if r : bool then Ok results else
       r <- filter_rejects conversation_id "conversation_id" entry ;;
       if r : bool then Ok results else
       r <- filter_rejects event "event" entry ;;
       if r : bool then Ok results else
       Ok (results ++ [entry]))
      (Ok results).

(** The scan: [results] when the loop ends, and the exception that ended it,
    if any. *)
Definition scan_history (tenant module conversation_id event : option string)
    (f : list line) : list json * option exn :=
  for_each (history_body tenant module conversation_id event) f [].

(** [session_log] is the content of [SESSION_LOG_FILE], [None] when the file
    does not exist.  The outer [except Exception: pass] drops the exception
    and keeps [results]. *)
Definition get_session_history (session_log : option (list line))
    (tenant module conversation_id event : option string) (limit : Z)
  : list json :=
  match session_log with
  | None => []
  | Some f =>
      let results := fst (scan_history tenant module conversation_id event f) in
      slice_from results (- limit)
  end.

(** [sessions]: a dict from the tuple [(tenant, module)] to the last entry,
    in insertion order. *)
Definition session_key : Type := json * json.
Definition sessions_t : Type := list (session_key * json).

Definition key_eqb (a b : session_key) : bool :=
  key_eq1 (fst a) (fst b) && key_eq1 (snd a) (snd b).

Fixpoint sessions_lookup (sessions : sessions_t) (key : session_key) : option json :=
  match sessions with
  | [] => None
  | (k, e) :: rest => if key_eqb k key then Some e else sessions_lookup rest key
  end.

Fixpoint sessions_store (sessions : sessions_t) (key : session_key) (entry : json)
  : sessions_t :=
  match sessions with
  | [] => [(key, entry)]
  | (k, e) :: rest =>
      if key_eqb k key then (k, entry) :: rest
      else (k, e) :: sessions_store rest key entry
  end.

(** [sessions[key] = entry]: hashing the tuple hashes both components. *)
Definition setitem (sessions : sessions_t) (key : session_key) (entry : json)
  : outcome sessions_t :=
  if hashable (fst key) && hashable (snd key)
  then Ok (sessions_store sessions key entry)
  else Raise TypeError.

(** The body of the first loop of [get_orphan_sessions]; the state is
    [sessions]. *)
Definition reduce_body (ln : line) (sessions : sessions_t) : outcome sessions_t :=
  if is_blank ln then Ok sessions
  else
    except_JSONDecodeError
      (entry <- json_loads ln ;;
       t <- get entry "tenant" ;;
       m <- get entry "module" ;;
       setitem sessions (t, m) entry)
      (Ok sessions).

Definition reduce_sessions (f : list line) : sessions_t * option exn :=
  for_each reduce_body f [].

Definition terminal_events : list string :=
  ["session_killed"; "session_disconnected"].

(** The body of the second loop; the state is [results]. *)
Definition orphan_body (active_conversations : list string)
    (item : session_key * json) (results : list json) : outcome (list json) :=
  let entry := snd item in
  ev <- get entry "event" ;;
  if in_strs ev terminal_events then Ok results else
  conv_id <- get entry "conversation_id" ;;
  if truthy conv_id && negb (in_strs conv_id active_conversations)
  then Ok (results ++ [entry])
  else Ok results.

(** [active_conversations] holds conversation ids, which are [str]. *)
Definition get_orphan_sessions (session_log : option (list line))
    (active_conversations : list string) : list json :=
  match session_log with
  | None => []
  | Some f =>
      match reduce_sessions f with
      | (sessions, None) =>
          fst (for_each (orphan_body active_conversations) sessions [])
      | (_, Some _) => []
      end
  end.

(** ** Vocabulary of the properties *)

Definition is_object (v : json) : bool :=
  match v with JDict _ => true | _ => false end.

(** The value a record holds under a name, [JNull] when it holds none. *)
Definition field (entry : json) (k : string) : json :=
  match entry with JDict d => dict_get d k JNull | _ => JNull end.

(** The values of the parseable lines, in file order. *)
Definition parsed_entries (f : list line) : list json :=
  flat_map (fun ln => match ln with Parsed v => [v] | _ => [] end) f.

(** Lines on which [get_session_history] cannot raise whatever the filters:
    blank, malformed, or a JSON object. *)
Definition scannable (ln : line) : bool :=
  match ln with
  | Blank | Malformed => true
  | Parsed v => is_object v
  | Unreadable => false
  end.

(** Lines on which the reduction of [get_orphan_sessions] cannot raise: as
    above, with a hashable tenant and module. *)
Definition keyed (ln : line) : bool :=
  match ln with
  | Blank | Malformed => true
  | Parsed v =>
      is_object v && hashable (field v "tenant") && hashable (field v "module")
  | Unreadable => false
  end.

(** A filter that constrains: supplied and not the empty string. *)
Definition constrains (flt : option string) : bool :=
  match flt with Some s => negb (s =? "")%string | None => false end.

(** "The field equals the supplied filter value", read literally: every
    supplied value counts. *)
Definition equals_supplied (flt : option string) (k : string) (entry : json) : bool :=
  match flt with Some s => eq_str (field entry k) s | None => true end.

Definition satisfies_supplied (tenant module conversation_id event : option string)
    (entry : json) : bool :=
  equals_supplied tenant "tenant" entry
  && equals_supplied module "module" entry
  && equals_supplied conversation_id "conversation_id" entry
  && equals_supplied event "event" entry.

(** The same with the empty string counted as "not supplied". *)
Definition equals_constraining (flt : option string) (k : string) (entry : json) : bool :=
  if constrains flt then equals_supplied flt k entry else true.

Definition satisfies (tenant module conversation_id event : option string)
    (entry : json) : bool :=
  equals_constraining tenant "tenant" entry
  && equals_constraining module "module" entry
  && equals_constraining conversation_id "conversation_id" entry
  && equals_constraining event "event" entry.

(** The last [k] elements of a list. *)
Definition last_n {A} (k : nat) (xs : list A) : list A :=
  skipn (List.length xs - k)%nat xs.

(** The session identity of a record, and the last record of the file under
    a key. *)
Definition key_of (entry : json) : option session_key :=
  match entry with
  | JDict d => Some (dict_get d "tenant" JNull, dict_get d "module" JNull)
  | _ => None
  end.

Definition has_key (key : session_key) (entry : json) : bool :=
  match key_of entry with Some k => key_eqb k key | None => false end.

Definition last_record (f : list line) (key : session_key) : option json :=
  find (has_key key) (rev (parsed_entries f)).

Definition is_last_record (f : list line) (entry : json) : Prop :=
  exists key, last_record f key = Some entry.

Definition terminal (entry : json) : bool :=
  in_strs (field entry "event") terminal_events.

Definition is_active (active : list string) (entry : json) : bool :=
  in_strs (field entry "conversation_id") active.

(** "Has a conversation_id", read literally: the field is not null. *)
Definition has_conversation_id (entry : json) : bool :=
  match field entry "conversation_id" with JNull => false | _ => true end.

Definition orphan_as_stated (f : list line) (active : list string) (entry : json) : Prop :=
  is_last_record f entry /\ terminal entry = false /\
  has_conversation_id entry = true /\ is_active active entry = false.

(** The same with "has a conversation_id" read as the code tests it. *)
Definition orphan (f : list line) (active : list string) (entry : json) : Prop :=
  is_last_record f entry /\ terminal entry = false /\
  truthy (field entry "conversation_id") = true /\ is_active active entry = false.

(** No two records of a list share a session key. *)
Definition distinct_keys (es : list json) : Prop :=
  ForallOrdPairs
    (fun a b => forall ka kb, key_of a = Some ka -> key_of b = Some kb ->
                              key_eqb ka kb = false) es.

(** The lines a file holds ([[]] when it does not exist), and what a call
    persisted: the file grew by exactly one parseable line. *)
Definition lines (w : world) (p : path) : list line :=
  match files w p with Some ls => ls | None => [] end.

Definition persisted (w w' : world) (p : path) (rec : list (string * json)) : Prop :=
  files w' p = Some (lines w p ++ [Parsed (JDict rec)]).

(** The shape of [sessions] during the reduction: every stored key is
    hashable and is the key of its entry, up to key equality, and no later
    key equals an earlier one. *)
Fixpoint well_formed (sessions : sessions_t) : Prop :=
  match sessions with
  | [] => True
  | (k, e) :: rest =>
      key_eqb k k = true /\ has_key k e = true
      /\ sessions_lookup rest k = None /\ well_formed rest
  end.

(** What the second loop of [get_orphan_sessions] tests on an entry. *)
Definition emits (active : list string) (entry : json) : bool :=
  negb (terminal entry) && truthy (field entry "conversation_id")
  && negb (is_active active entry).

(** ** Sample data *)

Module Samples.

Definition session (ev t m : string) (c : json) : json :=
  JDict [("type", JStr "session_event"); ("event", JStr ev); ("tenant", JStr t);
         ("module", JStr m); ("conversation_id", c); ("details", JDict []);
         ("duration_seconds", JNull); ("logged_at", JStr "2025-01-01T00:00:00")].

Definition auth_C1 : json := session "authenticated" "T" "M" (JStr "C1").
Definition killed_C1 : json := session "session_killed" "T" "M" (JStr "C1").

(** A world with no log file yet and a working disk. *)
Definition fresh : world :=
  mkWorld (fun _ => None) (fun _ => None) "2025-01-01T00:00:00" [].

(** A world whose disk refuses every append. *)
Definition read_only : world :=
  mkWorld (fun _ => None) (fun _ => Some "[Errno 13] Permission denied")
          "2025-01-01T00:00:00" [].

Fixpoint repeat_string (n : nat) (s : string) : string :=
  match n with O => EmptyString | S n' => (s ++ repeat_string n' s)%string end.

(** A command of 132 characters. *)
Definition long_command : string := repeat_string 12 "Get-Mailbox".

End Samples.

(** ** Further vocabulary *)

(** [xs] is [ys] with some of its elements left out, the order kept. *)
Inductive Subseq {A : Type} : list A -> list A -> Prop :=
| Subseq_nil : Subseq [] []
| Subseq_skip (y : A) (xs ys : list A) : Subseq xs ys -> Subseq xs (y :: ys)
| Subseq_keep (x : A) (xs ys : list A) : Subseq xs ys -> Subseq (x :: xs) (x :: ys).


(** The content of the session log after a writer ran. *)
Definition session_log (w : world) : option (list line) :=
  files w SESSION_LOG_FILE.

(** [needle in s] on [str]. *)
Fixpoint str_contains (needle s : string) : bool :=
  prefix needle s
  || match s with
     | EmptyString => false
     | String _ s' => str_contains needle s'
     end.

(** A writer left the world as it was, except that the file [p] may have
    grown by at most one line at its end and stderr may have grown. *)
Definition grows_only (w w' : world) (p : path) : Prop :=
  (exists added, lines w' p = lines w p ++ added /\ (List.length added <= 1)%nat)
  /\ (forall q, q <> p -> files w' q = files w q)
  /\ (files w p <> None -> files w' p <> None)
  /\ append_error w' = append_error w
  /\ now_isoformat w' = now_isoformat w
  /\ exists said, stderr w' = stderr w ++ said.

(** ** The caller: [call_tool] of [microsoft-master/server.py] *)

(** [mcp.types.TextContent(type="text", text=...)], the only content
    [_call_tool_impl] returns. *)
Record TextContent := mkTextContent { text : string }.

(** [log_tool_call] with [connection_name] as [call_tool] passes it: whatever
    value [arguments.get("connection")] returned goes into the dict literal
    under ["connection"]. *)
Definition log_tool_call_with (mcp_name tool_name : string)
    (arguments : list (string * json)) (connection_name : json)
    (conversation_id result error : option string)
    (duration_ms : option Z) (w : world) : world * outcome unit :=
  match tool_call_entry mcp_name tool_name arguments None conversation_id
          error duration_ms with
  | Ok entry => _write_log LOG_FILE (dict_set entry "connection" connection_name) w
  | Raise e => (w, Raise e)
  end.

Section Server.

(** Library and environment: [str.lower], [str(e)] of an exception, and the
    dispatch function, whose outcome depends on the connection registry and
    on the session pool's answers. *)
Variable str_lower : string -> string.
Variable str_of_exn : exn -> string.
Variable _call_tool_impl :
  string -> list (string * json) -> outcome (list TextContent).

(** The [try] suite and its [except] handler: the outcome handed on, with
    [error_msg] and [result_summary] as the [finally] suite finds them. *)
Definition call_tool_try (name : string) (arguments : list (string * json))
  : outcome (list TextContent) * option string * option string :=
  match _call_tool_impl name arguments with
  | Ok result =>
      match result with
      | first :: _ =>
          let text := substring 0 100 (text first) in
          if str_contains "error" (str_lower text)
          then (Ok result, Some text, None)
          else (Ok result, None, Some text)
      | [] => (Ok result, None, None)
      end
  | Raise e => (Raise e, Some (str_of_exn e), None)
  end.

(** [elapsed_ms] is [int((time.time() - start_time) * 1000)].  An exception
    of the [finally] suite replaces the outcome of the [try] suite. *)
Definition call_tool (name : string) (arguments : list (string * json))
    (elapsed_ms : Z) (w : world) : world * outcome (list TextContent) :=
  let connection_name := dict_get arguments "connection" JNull in
  let '(tried, error_msg, result_summary) := call_tool_try name arguments in
  match log_tool_call_with "mm" name arguments connection_name None
          result_summary error_msg (Some elapsed_ms) w with
  | (w', Ok _) => (w', tried)
  | (w', Raise e) => (w', Raise e)
  end.

(** What [call_tool] hands to the logger as [error], by the outcome of the
    dispatch function. *)
Definition logged_error (tried : outcome (list TextContent)) : option string :=
  match tried with
  | Raise e => Some (str_of_exn e)
  | Ok [] => None
  | Ok (first :: _) =>
      if str_contains "error" (str_lower (substring 0 100 (text first)))
      then Some (substring 0 100 (text first))
      else None
  end.

End Server.

(** ** More sample data *)

Module Fixtures.


Definition start_C2 : json :=
  Samples.session "session_start" "T2" "M" (JStr "C2").

Definition lower_ascii (c : ascii) : ascii :=
  let n := nat_of_ascii c in
  if ((65 <=? n) && (n <=? 90))%nat then ascii_of_nat (n + 32) else c.

Fixpoint lower (s : string) : string :=
  match s with
  | EmptyString => EmptyString
  | String c s' => String (lower_ascii c) (lower s')
  end.

Definition exn_text (e : exn) : string :=
  match e with
  | JSONDecodeError => "Expecting value: line 1 column 1 (char 0)"
  | AttributeError => "'list' object has no attribute 'get'"
  | TypeError => "'int' object is not subscriptable"
  | OSError => "[Errno 5] Input/output error"
  end.

(** A dispatch function that answers every call with one text. *)
Definition answer (t : string) (name : string) (arguments : list (string * json))
  : outcome (list TextContent) :=
  Ok [mkTextContent t].

(** A dispatch function that raises. *)
Definition failing (name : string) (arguments : list (string * json))
  : outcome (list TextContent) :=
  Raise AttributeError.

End Fixtures.

(** * Properties *)

(** ** Dicts and strings *)

Lemma substring_0_length (n : nat) (s : string) :
  String.length (substring 0 n s) = Nat.min n (String.length s).
Proof.
  revert s; induction n as [|n IH]; intros [|c s]; simpl; auto.
Qed.

Lemma dict_get_set_other {V} (d : list (string * V)) (k k' : string) (v dflt : V) :
  k <> k' -> dict_get (dict_set d k v) k' dflt = dict_get d k' dflt.
Proof.
  intros Hne; induction d as [|[k0 v0] d IH]; simpl.
  - destruct (String.eqb_spec k k'); congruence.
  - destruct (String.eqb_spec k0 k) as [->|Hk]; simpl.
    + destruct (String.eqb_spec k k'); congruence.
    + now rewrite IH.
Qed.

Lemma dict_get_set_same {V} (d : list (string * V)) (k : string) (v dflt : V) :
  dict_get (dict_set d k v) k dflt = v.
Proof.
  induction d as [|[k0 v0] d IH]; simpl.
  - now rewrite String.eqb_refl.
  - destruct (String.eqb_spec k0 k) as [->|Hk]; simpl.
    + now rewrite String.eqb_refl.
    + destruct (String.eqb_spec k0 k); congruence.
Qed.

Lemma contains_filter_out {V} (d : list (string * V)) (k : string) :
  contains (filter (fun kv => negb (fst kv =? k)%string) d) k = false.
Proof.
  unfold contains; induction d as [|[k0 v0] d IH]; simpl; auto.
  destruct (String.eqb_spec k0 k) as [->|Hk]; simpl; auto.
  destruct (String.eqb_spec k0 k); [congruence | exact IH].
Qed.

Lemma dict_get_filter_out {V} (d : list (string * V)) (k k' : string) (dflt : V) :
  k' <> k ->
  dict_get (filter (fun kv => negb (fst kv =? k)%string) d) k' dflt = dict_get d k' dflt.
Proof.
  intros Hne; induction d as [|[k0 v0] d IH]; simpl; auto.
  destruct (String.eqb_spec k0 k) as [->|Hk]; simpl.
  - destruct (String.eqb_spec k k'); congruence.
  - now rewrite IH.
Qed.

(** ** The writers *)

Lemma write_log_returns (p : path) (entry : list (string * json)) (w : world) :
  snd (_write_log p entry w) = Ok tt.
Proof. unfold _write_log; now destruct (append_error w p). Qed.

Lemma write_log_eq (p : path) (entry : list (string * json)) (w : world) :
  _write_log p entry w = (fst (_write_log p entry w), Ok tt).
Proof. unfold _write_log; now destruct (append_error w p). Qed.

Lemma write_log_persists (p : path) (entry : list (string * json)) (w : world) :
  append_error w p = None ->
  persisted w (fst (_write_log p entry w)) p
            (dict_set entry "logged_at" (JStr (now_isoformat w))).
Proof.
  intros Hok; unfold _write_log, persisted, lines; rewrite Hok; simpl.
  destruct p; simpl; now destruct (files w _).
Qed.


(** A call of [log_tool_call] returns normally, whatever the disk does, when
    the arguments hold no command or a command that is a [str] or a list. *)
Lemma log_tool_call_returns (mcp_name tool_name : string)
    (arguments : list (string * json))
    (connection_name conversation_id result error : option string)
    (duration_ms : option Z) (w : world) :
  contains arguments "command" = false
  \/ (exists s, dict_get arguments "command" (JStr "") = JStr s)
  \/ (exists l, dict_get arguments "command" (JStr "") = JList l) ->
  snd (log_tool_call mcp_name tool_name arguments connection_name conversation_id
         result error duration_ms w) = Ok tt.
Proof.
  intros H; unfold log_tool_call, tool_call_entry.
  destruct (contains arguments "command").
  - destruct H as [H | [[s H] | [l H]]]; [discriminate | | ];
      rewrite H; simpl; apply write_log_returns.
  - simpl; apply write_log_returns.
Qed.

(** Any other command value makes the preview's slice raise, before
    [_write_log] is reached. *)
Lemma log_tool_call_raises (mcp_name tool_name : string)
    (arguments : list (string * json))
    (connection_name conversation_id result error : option string)
    (duration_ms : option Z) (w : world) :
  contains arguments "command" = true ->
  (forall s, dict_get arguments "command" (JStr "") <> JStr s) ->
  (forall l, dict_get arguments "command" (JStr "") <> JList l) ->
  log_tool_call mcp_name tool_name arguments connection_name conversation_id
    result error duration_ms w = (w, Raise TypeError).
Proof.
  intros Hin Hs Hl; unfold log_tool_call, tool_call_entry; rewrite Hin.
  destruct (dict_get arguments "command" (JStr "")) eqn:E; simpl; try reflexivity.
  - now elim (Hs s).
  - now elim (Hl l).
Qed.

(** C4, at the input [arguments = {"command": 5}]: [5[:100]] raises
    [TypeError] while the entry is built, outside the [try] of [_write_log];
    the call does not return normally and nothing is written. *)
Theorem log_tool_call_int_command_raises :
  forall w : world,
    log_tool_call "mm" "run" [("command", JInt 5)] None None None None None w
    = (w, Raise TypeError).
Proof. intros w; reflexivity. Qed.

(** What a returning call hands to [_write_log]. *)
Lemma log_tool_call_inv (mcp_name tool_name : string)
    (arguments : list (string * json))
    (connection_name conversation_id result error : option string)
    (duration_ms : option Z) (w w' : world) :
  log_tool_call mcp_name tool_name arguments connection_name conversation_id
    result error duration_ms w = (w', Ok tt) ->
  exists entry,
    tool_call_entry mcp_name tool_name arguments connection_name conversation_id
      error duration_ms = Ok entry
    /\ w' = fst (_write_log LOG_FILE entry w).
Proof.
  unfold log_tool_call.
  destruct (tool_call_entry _ _ _ _ _ _ _) as [entry|e]; intros H.
  - exists entry; split; [reflexivity | now rewrite H].
  - discriminate.
Qed.

Lemma tool_call_entry_inv (mcp_name tool_name : string)
    (arguments : list (string * json))
    (connection_name conversation_id error : option string)
    (duration_ms : option Z) (entry : list (string * json)) :
  tool_call_entry mcp_name tool_name arguments connection_name conversation_id
    error duration_ms = Ok entry ->
  exists preview,
    (if contains arguments "command"
     then slice_to (dict_get arguments "command" (JStr "")) 100
     else Ok JNull) = Ok preview
    /\ entry =
       [ ("type", JStr "tool_call");
         ("mcp", JStr mcp_name);
         ("tool", JStr tool_name);
         ("connection", of_opt_str connection_name);
         ("conversation_id", of_opt_str conversation_id);
         ("arguments",
          JDict (filter (fun kv => negb (fst kv =? "command")%string) arguments));
         ("command_preview", preview);
         ("duration_ms", of_opt_int duration_ms);
         ("success", JBool (is_None error));
         ("error", of_opt_str error) ].
Proof.
  unfold tool_call_entry.
  destruct (if contains arguments "command" then _ else _) as [preview|e];
    simpl; intros H; [|discriminate].
  exists preview; split; [reflexivity | congruence].
Qed.

(** C5: on a disk that takes the append, the record a call persists holds
    under [arguments] the input mapping without its ["command"] key (no such
    key is left, every other key reads as before); a [str] command of more
    than 100 characters is persisted, with [command_preview] its first 100
    characters; without a command, the call persists [command_preview] as
    null. *)
Theorem tool_call_redaction :
  forall (mcp_name tool_name : string) (arguments : list (string * json))
         (connection_name conversation_id result error : option string)
         (duration_ms : option Z) (w : world),
    append_error w LOG_FILE = None ->
    (forall w',
        log_tool_call mcp_name tool_name arguments connection_name
          conversation_id result error duration_ms w = (w', Ok tt) ->
        exists rec kept,
          persisted w w' LOG_FILE rec
          /\ dict_get rec "arguments" JNull = JDict kept
          /\ kept = filter (fun kv => negb (fst kv =? "command")%string) arguments
          /\ contains kept "command" = false
          /\ (forall k, k <> "command" ->
                        dict_get kept k JNull = dict_get arguments k JNull))
    /\ (forall s,
           contains arguments "command" = true ->
           dict_get arguments "command" (JStr "") = JStr s ->
           (100 < String.length s)%nat ->
           exists w' rec,
             log_tool_call mcp_name tool_name arguments connection_name
               conversation_id result error duration_ms w = (w', Ok tt)
             /\ persisted w w' LOG_FILE rec
             /\ dict_get rec "command_preview" JNull = JStr (substring 0 100 s)
             /\ String.length (substring 0 100 s) = 100%nat)
    /\ (contains arguments "command" = false ->
        exists w' rec,
          log_tool_call mcp_name tool_name arguments connection_name
            conversation_id result error duration_ms w = (w', Ok tt)
          /\ persisted w w' LOG_FILE rec
          /\ dict_get rec "command_preview" JNull = JNull).
Proof.
  intros mcp_name tool_name arguments connection_name conversation_id result
         error duration_ms w Hdisk.
  split; [|split].
  - intros w' Hcall.
    apply log_tool_call_inv in Hcall as (entry & Hentry & ->).
    apply tool_call_entry_inv in Hentry as (preview & _ & ->).
    eexists; eexists; split; [apply write_log_persists; exact Hdisk|].
    split; [reflexivity|]. split; [reflexivity|].
    split; [apply contains_filter_out|].
    intros k Hk; apply dict_get_filter_out; exact Hk.
  - intros s Hin Hs Hlen.
    unfold log_tool_call, tool_call_entry; rewrite Hin, Hs; simpl.
    eexists; eexists; split; [apply write_log_eq|].
    split; [apply write_log_persists; exact Hdisk|].
    split; [reflexivity|].
    rewrite substring_0_length; lia.
  - intros Hout.
    unfold log_tool_call, tool_call_entry; rewrite Hout; simpl.
    eexists; eexists; split; [apply write_log_eq|].
    split; [apply write_log_persists; exact Hdisk | reflexivity].
Qed.

Lemma tool_call_redaction_witness :
  exists w' rec,
    log_tool_call "mm" "run"
      [("connection", JStr "ForIT-GA"); ("module", JStr "exo");
       ("command", JStr Samples.long_command)]
      (Some "ForIT-GA") None None None (Some 1500) Samples.fresh = (w', Ok tt)
    /\ persisted Samples.fresh w' LOG_FILE rec
    /\ dict_get rec "command_preview" JNull
       = JStr (substring 0 100 Samples.long_command)
    /\ String.length (substring 0 100 Samples.long_command) = 100%nat.
Proof.
  apply (proj1 (proj2 (tool_call_redaction "mm" "run"
           [("connection", JStr "ForIT-GA"); ("module", JStr "exo");
            ("command", JStr Samples.long_command)]
           (Some "ForIT-GA") None None None (Some 1500) Samples.fresh eq_refl))).
  - reflexivity.
  - reflexivity.
  - vm_compute; lia.
Defined.

(** C8, as the code has it: the record a call persists has exactly the
    fields [type], [mcp], [tool], [connection], [conversation_id],
    [arguments], [command_preview], [duration_ms], [success], [error] and
    [logged_at], in that order; [type] is ["tool_call"], [mcp], [tool] and
    [connection] carry the call's [mcp_name], [tool_name] and
    [connection_name] (null when not supplied), [success] tells whether
    [error] is absent, and [logged_at] is the clock's reading. *)
Theorem tool_call_record_fields :
  forall (mcp_name tool_name : string) (arguments : list (string * json))
         (connection_name conversation_id result error : option string)
         (duration_ms : option Z) (w w' : world),
    append_error w LOG_FILE = None ->
    log_tool_call mcp_name tool_name arguments connection_name conversation_id
      result error duration_ms w = (w', Ok tt) ->
    exists rec,
      persisted w w' LOG_FILE rec
      /\ keys rec = ["type"; "mcp"; "tool"; "connection"; "conversation_id";
                     "arguments"; "command_preview"; "duration_ms"; "success";
                     "error"; "logged_at"]
      /\ dict_get rec "type" JNull = JStr "tool_call"
      /\ dict_get rec "mcp" JNull = JStr mcp_name
      /\ dict_get rec "tool" JNull = JStr tool_name
      /\ dict_get rec "connection" JNull = of_opt_str connection_name
      /\ dict_get rec "conversation_id" JNull = of_opt_str conversation_id
      /\ dict_get rec "duration_ms" JNull = of_opt_int duration_ms
      /\ dict_get rec "success" JNull = JBool (is_None error)
      /\ dict_get rec "error" JNull = of_opt_str error
      /\ dict_get rec "logged_at" JNull = JStr (now_isoformat w).
Proof.
  intros mcp_name tool_name arguments connection_name conversation_id result
         error duration_ms w w' Hdisk Hcall.
  apply log_tool_call_inv in Hcall as (entry & Hentry & ->).
  apply tool_call_entry_inv in Hentry as (preview & _ & ->).
  eexists; split; [apply write_log_persists; exact Hdisk|].
  repeat split.
Qed.

Lemma tool_call_record_fields_witness :
  exists rec,
    persisted Samples.fresh
      (fst (log_tool_call "mm" "run" [("connection", JStr "ForIT-GA")]
              (Some "ForIT-GA") None None (Some "Error: not found") (Some 12)
              Samples.fresh))
      LOG_FILE rec
    /\ keys rec = ["type"; "mcp"; "tool"; "connection"; "conversation_id";
                   "arguments"; "command_preview"; "duration_ms"; "success";
                   "error"; "logged_at"]
    /\ dict_get rec "type" JNull = JStr "tool_call"
    /\ dict_get rec "mcp" JNull = JStr "mm"
    /\ dict_get rec "tool" JNull = JStr "run"
    /\ dict_get rec "connection" JNull = JStr "ForIT-GA"
    /\ dict_get rec "conversation_id" JNull = JNull
    /\ dict_get rec "duration_ms" JNull = JInt 12
    /\ dict_get rec "success" JNull = JBool false
    /\ dict_get rec "error" JNull = JStr "Error: not found"
    /\ dict_get rec "logged_at" JNull = JStr "2025-01-01T00:00:00".
Proof.
  apply (tool_call_record_fields "mm" "run" [("connection", JStr "ForIT-GA")]
           (Some "ForIT-GA") None None (Some "Error: not found") (Some 12)
           Samples.fresh _).
  - reflexivity.
  - reflexivity.
Defined.

(** C8 as stated fails: the record persisted by a call that supplies
    [mcp_name], [tool_name] and [connection_name] has no field of any of
    these names. *)
Lemma tool_call_record_lacks_stated_names :
  exists w' rec,
    log_tool_call "mm" "run" [] (Some "ForIT-GA") None None None (Some 12)
      Samples.fresh = (w', Ok tt)
    /\ persisted Samples.fresh w' LOG_FILE rec
    /\ contains rec "mcp_name" = false
    /\ contains rec "tool_name" = false
    /\ contains rec "connection_name" = false.
Proof.
  eexists; eexists; split; [reflexivity|].
  split; [reflexivity|].
  repeat split.
Qed.

(** ** Loops *)

Lemma for_each_app {A S} (body : A -> S -> outcome S) (xs ys : list A) (s : S) :
  for_each body (xs ++ ys) s =
  match for_each body xs s with
  | (s', None) => for_each body ys s'
  | (s', Some e) => (s', Some e)
  end.
Proof.
  revert s; induction xs as [|x xs IH]; intros s; simpl; auto.
  destruct (body x s) as [s'|e]; auto.
Qed.

(** An element on which the body leaves the state alone can be dropped. *)
Lemma for_each_skip {A S} (body : A -> S -> outcome S) (x : A) (xs ys : list A) :
  (forall s, body x s = Ok s) ->
  forall s, for_each body (xs ++ x :: ys) s = for_each body (xs ++ ys) s.
Proof.
  intros Hx s; rewrite !for_each_app; simpl.
  destruct (for_each body xs s) as [s' [e|]]; auto.
  now rewrite Hx.
Qed.

(** An element on which the body raises ends the loop there. *)
Lemma for_each_stop {A S} (body : A -> S -> outcome S) (x : A) (xs ys : list A)
    (e : exn) :
  (forall s, body x s = Raise e) ->
  forall s, fst (for_each body (xs ++ x :: ys) s) = fst (for_each body xs s)
            /\ exists e', snd (for_each body (xs ++ x :: ys) s) = Some e'.
Proof.
  intros Hx s; rewrite for_each_app; simpl.
  destruct (for_each body xs s) as [s' [e'|]]; simpl.
  - split; [reflexivity | now exists e'].
  - rewrite Hx; simpl; split; [reflexivity | now exists e].
Qed.

(** ** Python slices *)

Lemma slice_from_zero {A} (xs : list A) : slice_from xs (- 0) = xs.
Proof.
  unfold slice_from; simpl.
  replace (Z.to_nat (Z.min 0 (Z.of_nat (List.length xs)))) with O by lia.
  reflexivity.
Qed.

Lemma slice_from_last {A} (xs : list A) (k : Z) :
  0 < k -> slice_from xs (- k) = last_n (Z.to_nat k) xs.
Proof.
  intros Hk; unfold slice_from, last_n.
  destruct (Z.ltb_spec (- k) 0); [|lia].
  f_equal; lia.
Qed.

Lemma last_n_length {A} (k : nat) (xs : list A) :
  List.length (last_n k xs) = Nat.min k (List.length xs).
Proof. unfold last_n; rewrite length_skipn; lia. Qed.

Lemma last_n_suffix {A} (k : nat) (xs : list A) :
  exists front, xs = front ++ last_n k xs.
Proof.
  exists (firstn (List.length xs - k) xs); unfold last_n.
  now rewrite firstn_skipn.
Qed.

(** ** The history query *)

Lemma filter_rejects_object (flt : option string) (k : string)
    (d : list (string * json)) :
  filter_rejects flt k (JDict d) = Ok (negb (equals_constraining flt k (JDict d))).
Proof.
  unfold filter_rejects, equals_constraining, constrains.
  destruct flt as [s|]; [|reflexivity].
  destruct (s =? "")%string; reflexivity.
Qed.

Lemma filter_rejects_other (flt : option string) (k : string) (v : json) :
  is_object v = false ->
  filter_rejects flt k v = if constrains flt then Raise AttributeError else Ok false.
Proof.
  intros Hv; unfold filter_rejects, constrains.
  destruct flt as [s|]; [|reflexivity].
  destruct (s =? "")%string; simpl; [reflexivity|].
  destruct v; simpl in *; try reflexivity; discriminate.
Qed.

Lemma history_body_object (tenant module conversation_id event : option string)
    (d : list (string * json)) (results : list json) :
  history_body tenant module conversation_id event (Parsed (JDict d)) results =
  Ok (if satisfies tenant module conversation_id event (JDict d)
      then results ++ [JDict d] else results).
Proof.
  unfold history_body, satisfies.
  cbn [is_blank json_loads bind].
  rewrite !filter_rejects_object.
  destruct (equals_constraining tenant "tenant" (JDict d)),
           (equals_constraining module "module" (JDict d)),
           (equals_constraining conversation_id "conversation_id" (JDict d)),
           (equals_constraining event "event" (JDict d)); reflexivity.
Qed.

(** On a value that is not an object the first constraining filter calls a
    [get] that does not exist; with no constraining filter the value is
    kept. *)
Lemma history_body_other (tenant module conversation_id event : option string)
    (v : json) (results : list json) :
  is_object v = false ->
  history_body tenant module conversation_id event (Parsed v) results =
  if constrains tenant || constrains module || constrains conversation_id
     || constrains event
  then Raise AttributeError
  else Ok (results ++ [v]).
Proof.
  intros Hv; unfold history_body.
  cbn [is_blank json_loads bind].
  rewrite !(filter_rejects_other _ _ v Hv).
  destruct (constrains tenant), (constrains module),
           (constrains conversation_id), (constrains event); reflexivity.
Qed.

Lemma history_loop_scannable (tenant module conversation_id event : option string)
    (f : list line) :
  forallb scannable f = true ->
  forall results,
    for_each (history_body tenant module conversation_id event) f results =
    (results ++ filter (satisfies tenant module conversation_id event)
                       (parsed_entries f), None).
Proof.
  induction f as [|ln f IH]; intros Hf results; simpl.
  - now rewrite app_nil_r.
  - simpl in Hf; apply andb_prop in Hf as [Hln Hf].
    destruct ln as [| |v|]; try discriminate.
    + simpl; now apply IH.
    + simpl; now apply IH.
    + destruct v; try discriminate.
      rewrite history_body_object; simpl.
      destruct (satisfies tenant module conversation_id event (JDict d)).
      * rewrite IH by exact Hf. now rewrite <- app_assoc.
      * now apply IH.
Qed.

Lemma scan_history_malformed (tenant module conversation_id event : option string)
    (pre post : list line) :
  scan_history tenant module conversation_id event (pre ++ Malformed :: post)
  = scan_history tenant module conversation_id event (pre ++ post).
Proof. unfold scan_history; now apply for_each_skip. Qed.

(** With a positive limit the query returns the last [limit] matches. *)
Lemma get_session_history_positive_limit (f : list line)
    (tenant module conversation_id event : option string) (limit : Z) :
  0 < limit ->
  let matches := fst (scan_history tenant module conversation_id event f) in
  let returned :=
    get_session_history (Some f) tenant module conversation_id event limit in
  returned = last_n (Z.to_nat limit) matches
  /\ Z.of_nat (List.length returned) <= limit
  /\ (limit < Z.of_nat (List.length matches) ->
      Z.of_nat (List.length returned) = limit)
  /\ exists front, matches = front ++ returned.
Proof.
  intros Hpos matches returned.
  assert (E : returned = last_n (Z.to_nat limit) matches)
    by (apply slice_from_last; exact Hpos).
  rewrite E; split; [reflexivity|].
  rewrite last_n_length.
  split; [lia|]. split; [lia|]. apply last_n_suffix.
Qed.

(** With limit 0 it returns every match. *)
Lemma get_session_history_limit_0 (f : list line)
    (tenant module conversation_id event : option string) :
  get_session_history (Some f) tenant module conversation_id event 0
  = fst (scan_history tenant module conversation_id event f).
Proof. unfold get_session_history; apply slice_from_zero. Qed.

(** C3, at [limit = 0] on a log of two matching records: [results[-0:]] is
    the whole list, so both records are returned where at most 0 were
    promised. *)
Theorem get_session_history_limit_zero_returns_all :
  get_session_history (Some [Parsed Samples.auth_C1; Parsed Samples.killed_C1])
    None None None None 0
  = [Samples.auth_C1; Samples.killed_C1].
Proof. reflexivity. Qed.

(** A negative limit drops that many of the first matches. *)
Example get_session_history_negative_limit :
  get_session_history (Some [Parsed Samples.auth_C1; Parsed Samples.killed_C1])
    None None None None (-1)
  = [Samples.killed_C1].
Proof. reflexivity. Qed.

(** C6, as the code has it: on a log whose parseable lines are all JSON
    objects and that reads without error, the scan ends normally and keeps,
    in file order, exactly the parseable records whose fields equal every
    filter that is supplied and not the empty string; an omitted or empty
    filter imposes no constraint. *)
Theorem history_filter_conjunction :
  forall (f : list line) (tenant module conversation_id event : option string),
    forallb scannable f = true ->
    scan_history tenant module conversation_id event f
    = (filter (satisfies tenant module conversation_id event) (parsed_entries f),
       None)
    /\ (forall entry,
           In entry (fst (scan_history tenant module conversation_id event f))
           <-> In entry (parsed_entries f)
               /\ satisfies tenant module conversation_id event entry = true)
    /\ (forall k entry,
           equals_constraining None k entry = true
           /\ equals_constraining (Some "") k entry = true)
    /\ (forall s k entry,
           s <> "" ->
           (equals_constraining (Some s) k entry = true <-> field entry k = JStr s)).
Proof.
  intros f tenant module conversation_id event Hf.
  assert (E : scan_history tenant module conversation_id event f
              = (filter (satisfies tenant module conversation_id event)
                        (parsed_entries f), None))
    by (unfold scan_history; now rewrite history_loop_scannable).
  split; [exact E|]. split; [|split].
  - intros entry; rewrite E; simpl. now rewrite filter_In.
  - intros k entry; split; reflexivity.
  - intros s k entry Hs; unfold equals_constraining, constrains.
    destruct (String.eqb_spec s ""); [contradiction|]; simpl.
    unfold eq_str; destruct (field entry k); split; try discriminate.
    + intros H; apply String.eqb_eq in H; congruence.
    + intros H; inversion H; apply String.eqb_refl.
Qed.

Lemma history_filter_conjunction_witness :
  scan_history (Some "T") None None (Some "session_killed")
    [Parsed Samples.auth_C1; Malformed; Blank; Parsed Samples.killed_C1]
  = ([Samples.killed_C1], None).
Proof.
  exact (proj1 (history_filter_conjunction
                  [Parsed Samples.auth_C1; Malformed; Blank;
                   Parsed Samples.killed_C1]
                  (Some "T") None None (Some "session_killed") eq_refl)).
Defined.

(** C6 as stated fails: with the tenant filter supplied as the empty string,
    a record of tenant ["T"] is kept although its tenant does not equal the
    supplied value. *)
Lemma empty_filter_keeps_unequal_record :
  scan_history (Some "") None None None [Parsed Samples.auth_C1]
  = ([Samples.auth_C1], None)
  /\ In Samples.auth_C1 (parsed_entries [Parsed Samples.auth_C1])
  /\ satisfies_supplied (Some "") None None None Samples.auth_C1 = false.
Proof. repeat split. now left. Qed.

(** C7: a malformed line between two parseable lines is passed over: the
    unfiltered query returns the two records and its scan meets no
    exception; more generally, for any filters, limit and surrounding
    lines, both readers behave as if the malformed line were not there. *)
Theorem malformed_line_is_skipped :
  (forall r1 r2 : json,
      scan_history None None None None [Parsed r1; Malformed; Parsed r2]
      = ([r1; r2], None)
      /\ get_session_history (Some [Parsed r1; Malformed; Parsed r2])
           None None None None 100 = [r1; r2])
  /\ (forall (pre post : list line)
             (tenant module conversation_id event : option string) (limit : Z),
         scan_history tenant module conversation_id event (pre ++ Malformed :: post)
         = scan_history tenant module conversation_id event (pre ++ post)
         /\ get_session_history (Some (pre ++ Malformed :: post))
              tenant module conversation_id event limit
            = get_session_history (Some (pre ++ post))
                tenant module conversation_id event limit)
  /\ (forall (pre post : list line) (active_conversations : list string),
         reduce_sessions (pre ++ Malformed :: post) = reduce_sessions (pre ++ post)
         /\ get_orphan_sessions (Some (pre ++ Malformed :: post)) active_conversations
            = get_orphan_sessions (Some (pre ++ post)) active_conversations).
Proof.
  split; [|split].
  - intros r1 r2; split; reflexivity.
  - intros pre post tenant module conversation_id event limit.
    split; [apply scan_history_malformed|].
    unfold get_session_history; now rewrite scan_history_malformed.
  - intros pre post active_conversations.
    assert (E : reduce_sessions (pre ++ Malformed :: post)
                = reduce_sessions (pre ++ post))
      by (unfold reduce_sessions; now apply for_each_skip).
    split; [exact E|].
    unfold get_orphan_sessions; now rewrite E.
Qed.

(** C10: a filter supplied as the empty string selects nothing: the query
    returns what it returns with that filter omitted, for each of the four
    filters and for all of them at once. *)
Theorem empty_filter_is_omitted :
  forall (session_log : option (list line))
         (tenant module conversation_id event : option string) (limit : Z),
    get_session_history session_log (Some "") module conversation_id event limit
    = get_session_history session_log None module conversation_id event limit
    /\ get_session_history session_log tenant (Some "") conversation_id event limit
       = get_session_history session_log tenant None conversation_id event limit
    /\ get_session_history session_log tenant module (Some "") event limit
       = get_session_history session_log tenant module None event limit
    /\ get_session_history session_log tenant module conversation_id (Some "") limit
       = get_session_history session_log tenant module conversation_id None limit
    /\ get_session_history session_log (Some "") (Some "") (Some "") (Some "") limit
       = get_session_history session_log None None None None limit.
Proof. intros; repeat split. Qed.

(** ** Key equality *)

Lemma float_eqb_sym (a b : pyfloat) : float_eqb a b = float_eqb b a.
Proof.
  destruct a as [p|s|], b as [q|t|]; simpl; auto.
  - apply Qeq_bool_comm.
  - now destruct s, t.
Qed.

Lemma float_eqb_eucl (a b c : pyfloat) :
  float_eqb a b = true -> float_eqb a c = float_eqb b c.
Proof.
  destruct a as [p|s|], b as [q|t|]; simpl; try discriminate; intros H.
  - destruct c as [r|u|]; simpl; auto.
    destruct (Qeq_bool q r) eqn:E.
    + exact (Qeq_bool_trans _ _ _ H E).
    + destruct (Qeq_bool p r) eqn:E'; auto.
      apply Qeq_bool_sym in H.
      now rewrite (Qeq_bool_trans _ _ _ H E') in E.
  - apply Bool.eqb_prop in H; now subst.
  - reflexivity.
Qed.

Lemma key_eq1_sym (a b : json) : key_eq1 a b = key_eq1 b a.
Proof.
  destruct a, b; simpl; auto using float_eqb_sym, String.eqb_sym, Qeq_bool_comm.
Qed.

Lemma key_eq1_eucl (a b c : json) :
  key_eq1 a b = true -> key_eq1 a c = key_eq1 b c.
Proof.
  destruct a, b; simpl; try discriminate; intros H;
    try (apply String.eqb_eq in H; subst; reflexivity);
    destruct c; simpl; auto;
    solve [ apply (float_eqb_eucl (FFin _) (FFin _) (FFin _)); exact H
          | apply (float_eqb_eucl (FFin _) (FFin _) _); exact H
          | apply (float_eqb_eucl _ (FFin _) (FFin _)); exact H
          | apply (float_eqb_eucl (FFin _) _ (FFin _)); exact H
          | apply (float_eqb_eucl (FFin _) _ _); exact H
          | apply (float_eqb_eucl _ (FFin _) _); exact H
          | apply (float_eqb_eucl _ _ (FFin _)); exact H
          | apply float_eqb_eucl; exact H ].
Qed.

Lemma key_eq1_refl (a : json) : hashable a = true -> key_eq1 a a = true.
Proof.
  destruct a as [|b|z|[q|s|]|s|l|d]; simpl; try discriminate; intros _; auto.
  - apply Qeq_bool_refl.
  - apply Qeq_bool_refl.
  - apply Qeq_bool_refl.
  - now destruct s.
  - apply String.eqb_refl.
Qed.

Lemma key_eqb_sym (a b : session_key) : key_eqb a b = key_eqb b a.
Proof. unfold key_eqb; now rewrite (key_eq1_sym (fst a)), (key_eq1_sym (snd a)). Qed.

Lemma key_eqb_eucl (a b c : session_key) :
  key_eqb a b = true -> key_eqb a c = key_eqb b c.
Proof.
  unfold key_eqb; intros H; apply andb_prop in H as [H1 H2].
  now rewrite (key_eq1_eucl _ _ (fst c) H1), (key_eq1_eucl _ _ (snd c) H2).
Qed.

Lemma key_eqb_refl (a : session_key) :
  hashable (fst a) && hashable (snd a) = true -> key_eqb a a = true.
Proof.
  unfold key_eqb; intros H; apply andb_prop in H as [H1 H2].
  now rewrite !key_eq1_refl.
Qed.

(** ** The sessions dict *)

Lemma sessions_lookup_store (sessions : sessions_t) (k key : session_key)
    (entry : json) :
  sessions_lookup (sessions_store sessions k entry) key
  = if key_eqb k key then Some entry else sessions_lookup sessions key.
Proof.
  induction sessions as [|[k0 e0] rest IH]; simpl; [reflexivity|].
  destruct (key_eqb k0 k) eqn:E0; simpl.
  - rewrite (key_eqb_eucl _ _ key E0). now destruct (key_eqb k key).
  - rewrite IH.
    destruct (key_eqb k0 key) eqn:E1; [|reflexivity].
    rewrite (key_eqb_eucl _ _ k E1) in E0.
    now rewrite key_eqb_sym, E0.
Qed.

Lemma sessions_lookup_None (sessions : sessions_t) (key : session_key) :
  sessions_lookup sessions key = None ->
  forall k e, In (k, e) sessions -> key_eqb k key = false.
Proof.
  induction sessions as [|[k0 e0] rest IH]; simpl; [contradiction|].
  destruct (key_eqb k0 key) eqn:E0; [discriminate|].
  intros H k e [Heq | Hin]; [congruence | eauto].
Qed.

Lemma sessions_lookup_Some (sessions : sessions_t) (key : session_key) (e : json) :
  sessions_lookup sessions key = Some e -> exists k, In (k, e) sessions.
Proof.
  induction sessions as [|[k0 e0] rest IH]; simpl; [discriminate|].
  destruct (key_eqb k0 key).
  - intros H; inversion H; subst; eauto.
  - intros H; destruct (IH H) as [k Hk]; eauto.
Qed.

Lemma well_formed_store (sessions : sessions_t) (k : session_key) (entry : json) :
  well_formed sessions -> key_eqb k k = true -> key_of entry = Some k ->
  well_formed (sessions_store sessions k entry).
Proof.
  intros Hwf Hk Hkey; induction sessions as [|[k0 e0] rest IH]; simpl.
  - unfold has_key; rewrite Hkey; auto.
  - destruct Hwf as (H0 & H1 & H2 & H3).
    destruct (key_eqb k0 k) eqn:E0; simpl.
    + repeat split; auto.
      unfold has_key; rewrite Hkey. now rewrite key_eqb_sym.
    + repeat split; auto.
      rewrite sessions_lookup_store, key_eqb_sym, E0; exact H2.
Qed.

Lemma well_formed_lookup (sessions : sessions_t) (k : session_key) (e : json) :
  well_formed sessions -> In (k, e) sessions -> sessions_lookup sessions k = Some e.
Proof.
  induction sessions as [|[k0 e0] rest IH]; simpl; [contradiction|].
  intros (H0 & H1 & H2 & H3) [Heq | Hin].
  - inversion Heq; subst; now rewrite H0.
  - rewrite key_eqb_sym, (sessions_lookup_None _ _ H2 _ _ Hin). auto.
Qed.

Lemma well_formed_has_key (sessions : sessions_t) (k : session_key) (e : json) :
  well_formed sessions -> In (k, e) sessions -> has_key k e = true.
Proof.
  induction sessions as [|[k0 e0] rest IH]; simpl; [contradiction|].
  intros (H0 & H1 & H2 & H3) [Heq | Hin]; [congruence | auto].
Qed.

Lemma has_key_object (k : session_key) (e : json) :
  has_key k e = true -> is_object e = true.
Proof. unfold has_key; destruct e; simpl; auto; discriminate. Qed.

(** ** The reduction of the orphan detector *)

Lemma reduce_body_object (d : list (string * json)) (sessions : sessions_t) :
  reduce_body (Parsed (JDict d)) sessions
  = setitem sessions (dict_get d "tenant" JNull, dict_get d "module" JNull) (JDict d).
Proof.
  unfold reduce_body, setitem; simpl.
  now destruct (hashable _ && hashable _).
Qed.

Lemma reduce_body_other (v : json) (sessions : sessions_t) :
  is_object v = false -> reduce_body (Parsed v) sessions = Raise AttributeError.
Proof. destruct v; simpl; intros H; try reflexivity; discriminate. Qed.

Lemma reduce_body_Ok (ln : line) (s s' : sessions_t) :
  reduce_body ln s = Ok s' ->
  (parsed_entries [ln] = [] /\ s' = s)
  \/ (exists d k, ln = Parsed (JDict d) /\ key_of (JDict d) = Some k
                  /\ key_eqb k k = true /\ s' = sessions_store s k (JDict d)).
Proof.
  destruct ln as [| |v|]; simpl.
  - intros H; inversion H; auto.
  - intros H; inversion H; auto.
  - destruct v; try discriminate.
    rewrite reduce_body_object; unfold setitem.
    destruct (hashable _ && hashable _) eqn:Hh; [|discriminate].
    intros H; inversion H; right.
    exists d; eexists; repeat split. now apply key_eqb_refl.
  - discriminate.
Qed.

Lemma find_app {A} (p : A -> bool) (xs ys : list A) :
  find p (xs ++ ys) = match find p xs with Some x => Some x | None => find p ys end.
Proof. induction xs as [|x xs IH]; simpl; auto. now destruct (p x). Qed.

Lemma last_record_cons (ln : line) (f : list line) (key : session_key) :
  last_record (ln :: f) key =
  match last_record f key with
  | Some e => Some e
  | None => find (has_key key) (parsed_entries [ln])
  end.
Proof.
  unfold last_record.
  change (ln :: f) with ([ln] ++ f).
  unfold parsed_entries; rewrite flat_map_app, rev_app_distr, find_app.
  destruct (find (has_key key) (rev (flat_map _ f))); [reflexivity|].
  destruct ln; reflexivity.
Qed.

Lemma reduce_loop (f : list line) :
  forall s0 m,
    for_each reduce_body f s0 = (m, None) ->
    (forall key,
        sessions_lookup m key =
        match last_record f key with
        | Some e => Some e
        | None => sessions_lookup s0 key
        end)
    /\ (well_formed s0 -> well_formed m).
Proof.
  induction f as [|ln f IH]; intros s0 m; simpl.
  - intros H; inversion H; subst; auto.
  - destruct (reduce_body ln s0) as [s1|e] eqn:Hbody; [|discriminate].
    intros Hrest; destruct (IH _ _ Hrest) as [Hlook Hwf].
    apply reduce_body_Ok in Hbody
      as [[Hnone ->] | (d & k & -> & Hkey & Hrefl & ->)].
    + split; [|exact Hwf].
      intros key; rewrite last_record_cons, Hnone, Hlook; simpl.
      now destruct (last_record f key).
    + split.
      * intros key; rewrite last_record_cons, Hlook, sessions_lookup_store.
        destruct (last_record f key); [reflexivity|].
        simpl; unfold has_key; rewrite Hkey.
        now destruct (key_eqb k key).
      * intros H0; apply Hwf. now apply well_formed_store.
Qed.

Lemma reduce_loop_keyed (f : list line) :
  forallb keyed f = true ->
  forall s0, snd (for_each reduce_body f s0) = None.
Proof.
  induction f as [|ln f IH]; simpl; intros Hf s0; [reflexivity|].
  apply andb_prop in Hf as [Hln Hf].
  destruct ln as [| |v|]; simpl in *; try discriminate; auto.
  destruct v; try discriminate.
  rewrite reduce_body_object; unfold setitem; cbn [fst snd].
  simpl in Hln; rewrite Hln. now apply IH.
Qed.

(** ** The emission loop *)

Lemma emits_iff (active : list string) (e : json) :
  emits active e = true
  <-> terminal e = false /\ truthy (field e "conversation_id") = true
      /\ is_active active e = false.
Proof.
  unfold emits.
  destruct (terminal e), (truthy _), (is_active active e); simpl; intuition congruence.
Qed.

Lemma orphan_body_object (active : list string) (item : session_key * json)
    (results : list json) :
  is_object (snd item) = true ->
  orphan_body active item results
  = Ok (if emits active (snd item) then results ++ [snd item] else results).
Proof.
  destruct item as [k e]; simpl; destruct e; try discriminate; intros _.
  unfold orphan_body, emits, terminal, is_active, field, get.
  cbn [snd bind].
  destruct (in_strs (dict_get d "event" JNull) terminal_events),
           (truthy (dict_get d "conversation_id" JNull)),
           (in_strs (dict_get d "conversation_id" JNull) active); reflexivity.
Qed.

Lemma orphan_loop (active : list string) (sessions : sessions_t) :
  Forall (fun item => is_object (snd item) = true) sessions ->
  forall results,
    for_each (orphan_body active) sessions results
    = (results ++ filter (emits active) (map snd sessions), None).
Proof.
  induction 1 as [|item rest Hitem Hrest IH]; intros results; simpl.
  - now rewrite app_nil_r.
  - rewrite orphan_body_object by exact Hitem.
    destruct (emits active (snd item)); rewrite IH; [|reflexivity].
    now rewrite <- app_assoc.
Qed.

Lemma well_formed_objects (sessions : sessions_t) :
  well_formed sessions ->
  Forall (fun item => is_object (snd item) = true) sessions.
Proof.
  intros Hwf; apply Forall_forall; intros [k e] Hin; simpl.
  eapply has_key_object, well_formed_has_key; eauto.
Qed.

Lemma well_formed_distinct (sessions : sessions_t) :
  well_formed sessions -> distinct_keys (map snd sessions).
Proof.
  unfold distinct_keys.
  induction sessions as [|[k e] rest IH]; simpl; [constructor|].
  intros (H0 & H1 & H2 & H3); constructor; [|auto].
  apply Forall_forall; intros e' Hin ka kb Ha Hb.
  apply in_map_iff in Hin as [[k' e''] [Heq Hin]]; simpl in Heq; subst e''.
  pose proof (well_formed_has_key _ _ _ H3 Hin) as Hk'.
  pose proof (sessions_lookup_None _ _ H2 _ _ Hin) as Hne.
  unfold has_key in H1, Hk'; rewrite Ha in H1; rewrite Hb in Hk'.
  rewrite (key_eqb_eucl _ _ kb H1), key_eqb_sym.
  now rewrite (key_eqb_eucl _ _ k Hk').
Qed.

Lemma distinct_keys_filter (p : json -> bool) (es : list json) :
  distinct_keys es -> distinct_keys (filter p es).
Proof.
  unfold distinct_keys; induction 1 as [|a l Ha Hl IH]; simpl; [constructor|].
  destruct (p a); [|exact IH].
  constructor; [|exact IH].
  apply Forall_forall; intros b Hb; apply filter_In in Hb as [Hb _].
  now apply (proj1 (Forall_forall _ _) Ha).
Qed.

(** On a log of keyed lines the reduction ends normally and the detector
    returns the entries of [sessions] that pass the test, in dict order. *)
Lemma get_orphan_sessions_keyed (f : list line) (active : list string) :
  forallb keyed f = true ->
  exists sessions,
    reduce_sessions f = (sessions, None)
    /\ well_formed sessions
    /\ (forall key, sessions_lookup sessions key = last_record f key)
    /\ get_orphan_sessions (Some f) active
       = filter (emits active) (map snd sessions).
Proof.
  intros Hf.
  pose proof (reduce_loop_keyed f Hf []) as Hend.
  destruct (for_each reduce_body f []) as [sessions ex] eqn:E; simpl in Hend; subst ex.
  destruct (reduce_loop f _ _ E) as [Hlook Hwf].
  exists sessions; split; [exact E|].
  split; [apply Hwf; exact I|].
  split.
  - intros key; rewrite Hlook. now destruct (last_record f key).
  - unfold get_orphan_sessions, reduce_sessions; rewrite E.
    rewrite orphan_loop by (apply well_formed_objects, Hwf; exact I).
    reflexivity.
Qed.

(** C2: when the scan of [get_orphan_sessions] ends normally, the entry of
    [sessions] under any key is the last parseable record of the file with
    that key (none when the file has none); the scan ends normally on every
    log whose parseable lines are objects with a hashable tenant and module;
    and for three records of one key with events [session_start],
    [authenticated], [session_idle] in that order, the entry under the key
    is the [session_idle] record. *)
Theorem reduction_is_last_write_wins :
  (forall (f : list line) (sessions : sessions_t),
      reduce_sessions f = (sessions, None) ->
      forall key, sessions_lookup sessions key = last_record f key)
  /\ (forall f : list line,
         forallb keyed f = true -> snd (reduce_sessions f) = None)
  /\ (forall (t m : string) (c1 c2 c3 : json),
         reduce_sessions
           [Parsed (Samples.session "session_start" t m c1);
            Parsed (Samples.session "authenticated" t m c2);
            Parsed (Samples.session "session_idle" t m c3)]
         = ([((JStr t, JStr m), Samples.session "session_idle" t m c3)], None)).
Proof.
  split; [|split].
  - intros f sessions Hscan key.
    destruct (reduce_loop f _ _ Hscan) as [Hlook _].
    rewrite Hlook. now destruct (last_record f key).
  - intros f Hf; now apply reduce_loop_keyed.
  - intros t m c1 c2 c3.
    assert (R : key_eqb (JStr t, JStr m) (JStr t, JStr m) = true)
      by (unfold key_eqb; simpl; now rewrite !String.eqb_refl).
    unfold reduce_sessions; simpl.
    repeat (rewrite R; simpl). reflexivity.
Qed.

Lemma reduction_is_last_write_wins_witness :
  sessions_lookup
    [((JStr "T", JStr "M"), Samples.session "session_idle" "T" "M" (JStr "C1"))]
    (JStr "T", JStr "M")
  = last_record
      [Parsed (Samples.session "session_start" "T" "M" (JStr "C1"));
       Parsed (Samples.session "authenticated" "T" "M" (JStr "C1"));
       Parsed (Samples.session "session_idle" "T" "M" (JStr "C1"))]
      (JStr "T", JStr "M").
Proof.
  exact (proj1 reduction_is_last_write_wins
           [Parsed (Samples.session "session_start" "T" "M" (JStr "C1"));
            Parsed (Samples.session "authenticated" "T" "M" (JStr "C1"));
            Parsed (Samples.session "session_idle" "T" "M" (JStr "C1"))]
           _ eq_refl (JStr "T", JStr "M")).
Defined.

(** C1, as the code has it: on a log whose parseable lines are all JSON
    objects with a hashable tenant and module and that reads without error,
    the detector returns exactly the records that are the last of the file
    under their key, whose event is neither [session_killed] nor
    [session_disconnected], and whose [conversation_id] is truthy (not null,
    not empty) and not in the active list; it returns at most one record per
    key. *)
Theorem orphans_are_open_last_records :
  forall (f : list line) (active_conversations : list string),
    forallb keyed f = true ->
    (forall entry,
        In entry (get_orphan_sessions (Some f) active_conversations)
        <-> orphan f active_conversations entry)
    /\ distinct_keys (get_orphan_sessions (Some f) active_conversations).
Proof.
  intros f active Hf.
  destruct (get_orphan_sessions_keyed f active Hf)
    as (sessions & _ & Hwf & Hlook & ->).
  split.
  - intros entry; unfold orphan, is_last_record.
    rewrite filter_In, emits_iff, in_map_iff.
    split; intros [Hin Hrest]; (split; [|exact Hrest]).
    + destruct Hin as [[k e] [Heq Hin]]; simpl in Heq; subst e.
      exists k; rewrite <- Hlook. now apply well_formed_lookup.
    + destruct Hin as [key Hkey]; rewrite <- Hlook in Hkey.
      apply sessions_lookup_Some in Hkey as [k Hk].
      now exists (k, entry).
  - now apply distinct_keys_filter, well_formed_distinct.
Qed.

Lemma orphans_are_open_last_records_witness :
  (forall entry,
      In entry
        (get_orphan_sessions
           (Some [Parsed Samples.auth_C1;
                  Parsed (Samples.session "session_start" "T2" "M" (JStr "C2"));
                  Malformed;
                  Parsed (Samples.session "session_killed" "T2" "M" (JStr "C2"));
                  Parsed (Samples.session "session_idle" "T3" "M" JNull)])
           ["C9"])
      <-> orphan
            [Parsed Samples.auth_C1;
             Parsed (Samples.session "session_start" "T2" "M" (JStr "C2"));
             Malformed;
             Parsed (Samples.session "session_killed" "T2" "M" (JStr "C2"));
             Parsed (Samples.session "session_idle" "T3" "M" JNull)]
            ["C9"] entry)
  /\ distinct_keys [Samples.auth_C1].
Proof.
  exact (orphans_are_open_last_records
           [Parsed Samples.auth_C1;
            Parsed (Samples.session "session_start" "T2" "M" (JStr "C2"));
            Malformed;
            Parsed (Samples.session "session_killed" "T2" "M" (JStr "C2"));
            Parsed (Samples.session "session_idle" "T3" "M" JNull)]
           ["C9"] eq_refl).
Defined.

(** C1 as stated fails: after a line that is valid JSON but not an object,
    the detector returns nothing, although the record before it is the last
    of its key, is not terminal and has a conversation id that is not
    active. *)
Lemma orphan_lost_after_non_object_line :
  get_orphan_sessions (Some [Parsed Samples.auth_C1; Parsed (JInt 5)]) [] = []
  /\ orphan_as_stated [Parsed Samples.auth_C1; Parsed (JInt 5)] [] Samples.auth_C1.
Proof.
  split; [reflexivity|].
  repeat split. now exists (JStr "T", JStr "M").
Qed.

(** The same on a log of session records only: an empty conversation id is
    a conversation id that is not active, and the record is not returned. *)
Lemma orphan_with_empty_conversation_id_not_flagged :
  get_orphan_sessions
    (Some [Parsed (Samples.session "authenticated" "T" "M" (JStr ""))]) [] = []
  /\ orphan_as_stated
       [Parsed (Samples.session "authenticated" "T" "M" (JStr ""))] []
       (Samples.session "authenticated" "T" "M" (JStr "")).
Proof.
  split; [reflexivity|].
  repeat split. now exists (JStr "T", JStr "M").
Qed.

(** C9, as the code has it: at a line that is valid JSON but not an object,
    [get_orphan_sessions] stops and returns the empty list;
    [get_session_history] called with at least one filter that is supplied
    and not empty stops there with an exception it swallows and returns what
    it returns on the lines before; called with no such filter it keeps the
    value as a result and goes on with the next line. *)
Theorem non_object_line :
  forall (pre post : list line) (v : json),
    is_object v = false ->
    (forall active_conversations,
        get_orphan_sessions (Some (pre ++ Parsed v :: post)) active_conversations
        = [])
    /\ (forall (tenant module conversation_id event : option string) (limit : Z),
           constrains tenant || constrains module || constrains conversation_id
           || constrains event = true ->
           fst (scan_history tenant module conversation_id event
                  (pre ++ Parsed v :: post))
           = fst (scan_history tenant module conversation_id event pre)
           /\ (exists e,
                  snd (scan_history tenant module conversation_id event
                         (pre ++ Parsed v :: post)) = Some e)
           /\ get_session_history (Some (pre ++ Parsed v :: post))
                tenant module conversation_id event limit
              = get_session_history (Some pre)
                  tenant module conversation_id event limit)
    /\ (forall tenant module conversation_id event : option string,
           constrains tenant || constrains module || constrains conversation_id
           || constrains event = false ->
           scan_history tenant module conversation_id event
             (pre ++ Parsed v :: post)
           = match scan_history tenant module conversation_id event pre with
             | (results, None) =>
                 for_each (history_body tenant module conversation_id event)
                   post (results ++ [v])
             | stopped => stopped
             end).
Proof.
  intros pre post v Hv; split; [|split].
  - intros active.
    destruct (for_each_stop reduce_body (Parsed v) pre post AttributeError
                (fun s => reduce_body_other v s Hv) []) as [_ [e He]].
    unfold get_orphan_sessions, reduce_sessions.
    destruct (for_each reduce_body (pre ++ Parsed v :: post) []) as [s ex].
    simpl in He; now subst ex.
  - intros tenant module conversation_id event limit Hc.
    assert (Hraise : forall s,
               history_body tenant module conversation_id event (Parsed v) s
               = Raise AttributeError)
      by (intros s; now rewrite history_body_other, Hc).
    destruct (for_each_stop _ (Parsed v) pre post AttributeError Hraise [])
      as [Hfst Hsnd].
    split; [exact Hfst|]. split; [exact Hsnd|].
    unfold get_session_history, scan_history; now rewrite Hfst.
  - intros tenant module conversation_id event Hc.
    unfold scan_history; rewrite for_each_app; simpl.
    destruct (for_each _ pre []) as [results [e|]]; [reflexivity|].
    now rewrite history_body_other, Hc.
Qed.

Lemma non_object_line_witness :
  get_orphan_sessions
    (Some ([Parsed Samples.auth_C1] ++ Parsed (JInt 5) :: [Parsed Samples.killed_C1]))
    [] = []
  /\ get_session_history
       (Some ([Parsed Samples.auth_C1] ++ Parsed (JInt 5) :: [Parsed Samples.killed_C1]))
       (Some "T") None None None 100
     = [Samples.auth_C1].
Proof.
  destruct (non_object_line [Parsed Samples.auth_C1] [Parsed Samples.killed_C1]
              (JInt 5) eq_refl) as (Horphan & Hfiltered & _).
  split.
  - exact (Horphan []).
  - exact (proj2 (proj2 (Hfiltered (Some "T") None None None 100 eq_refl))).
Defined.

(** C9 as stated fails: the unfiltered query does not stop at the line [5];
    it returns the value itself and the record after it. *)
Lemma unfiltered_history_passes_non_object_line :
  is_object (JInt 5) = false
  /\ get_session_history
       (Some [Parsed Samples.auth_C1; Parsed (JInt 5); Parsed Samples.killed_C1])
       None None None None 100
     = [Samples.auth_C1; JInt 5; Samples.killed_C1]
  /\ get_session_history (Some [Parsed Samples.auth_C1]) None None None None 100
     = [Samples.auth_C1].
Proof. repeat split. Qed.

(** ** The end-to-end runs of the specification *)

Example orphan_flagged :
  get_orphan_sessions (Some [Parsed Samples.auth_C1]) [] = [Samples.auth_C1].
Proof. reflexivity. Qed.

Example orphan_not_flagged_when_active :
  get_orphan_sessions (Some [Parsed Samples.auth_C1]) ["C1"] = [].
Proof. reflexivity. Qed.

Example orphan_not_flagged_when_killed :
  get_orphan_sessions (Some [Parsed Samples.auth_C1; Parsed Samples.killed_C1]) []
  = [].
Proof. reflexivity. Qed.

Example missing_file_is_empty :
  get_orphan_sessions None [] = []
  /\ get_session_history None None None None None 100 = [].
Proof. split; reflexivity. Qed.

Example session_event_round_trip :
  get_session_history
    (files (fst (log_session_event "authenticated" "T" "M" (Some "C1") None None
                   Samples.fresh)) SESSION_LOG_FILE)
    None None None None 100
  = [Samples.auth_C1].
Proof. reflexivity. Qed.

Example failed_write_is_swallowed :
  log_tool_call "mm" "run" [] None None None None None Samples.read_only
  = (write_stderr Samples.read_only
       ("[mcp_logger] Failed to write log: [Errno 13] Permission denied" ++ newline)%string,
     Ok tt).
Proof. reflexivity. Qed.

(** * Further properties *)

(** ** Subsequences *)

Lemma Subseq_refl {A} (xs : list A) : Subseq xs xs.
Proof. induction xs; [apply Subseq_nil | now apply Subseq_keep]. Qed.

Lemma Subseq_nil_l {A} (ys : list A) : Subseq [] ys.
Proof. induction ys; [apply Subseq_nil | now apply Subseq_skip]. Qed.

Lemma Subseq_trans {A} (xs ys zs : list A) :
  Subseq xs ys -> Subseq ys zs -> Subseq xs zs.
Proof.
  intros Hxy Hyz; revert xs Hxy.
  induction Hyz as [|z ys zs Hyz IH|y ys zs Hyz IH]; intros xs Hxy.
  - exact Hxy.
  - apply Subseq_skip; auto.
  - inversion Hxy; subst; [apply Subseq_skip | apply Subseq_keep]; auto.
Qed.

Lemma Subseq_skipn {A} (n : nat) (xs : list A) : Subseq (skipn n xs) xs.
Proof.
  revert n; induction xs as [|x xs IH]; intros [|n]; simpl;
    try apply Subseq_refl.
  apply Subseq_skip, IH.
Qed.

Lemma Subseq_In {A} (xs ys : list A) (x : A) : Subseq xs ys -> In x xs -> In x ys.
Proof.
  induction 1 as [|y xs ys H IH|y xs ys H IH]; simpl; auto.
  intros [-> | Hin]; auto.
Qed.

Lemma Forall_skipn {A} (P : A -> Prop) (n : nat) (xs : list A) :
  Forall P xs -> Forall P (skipn n xs).
Proof.
  intros H; apply Forall_forall; intros x Hx.
  apply (proj1 (Forall_forall P xs) H).
  eapply Subseq_In; [apply Subseq_skipn | exact Hx].
Qed.

(** ** What the history query can return, on any log *)

Lemma satisfies_unconstrained (tenant module conversation_id event : option string)
    (entry : json) :
  constrains tenant || constrains module || constrains conversation_id
  || constrains event = false ->
  satisfies tenant module conversation_id event entry = true.
Proof.
  unfold satisfies, equals_constraining.
  destruct (constrains tenant), (constrains module),
           (constrains conversation_id), (constrains event);
    simpl; intros H; try discriminate; reflexivity.
Qed.

Lemma history_loop_sound (tenant module conversation_id event : option string)
    (f : list line) :
  forall results,
  exists kept,
    fst (for_each (history_body tenant module conversation_id event) f results)
    = results ++ kept
    /\ Subseq kept (parsed_entries f)
    /\ Forall (fun entry =>
                 satisfies tenant module conversation_id event entry = true) kept.
Proof.
  induction f as [|ln f IH]; intros results.
  - exists []; simpl; rewrite app_nil_r.
    split; [reflexivity|]. split; [apply Subseq_nil | constructor].
  - assert (Hstop : exists kept : list json,
               results = results ++ kept
               /\ Subseq kept (parsed_entries (ln :: f))
               /\ Forall (fun entry =>
                            satisfies tenant module conversation_id event entry
                            = true) kept)
      by (exists []; rewrite app_nil_r; split; [reflexivity|];
          split; [apply Subseq_nil_l | constructor]).
    assert (Hpass : parsed_entries (ln :: f) = parsed_entries f ->
               exists kept : list json,
                 fst (for_each (history_body tenant module conversation_id event)
                        f results) = results ++ kept
                 /\ Subseq kept (parsed_entries (ln :: f))
                 /\ Forall (fun entry =>
                              satisfies tenant module conversation_id event entry
                              = true) kept)
      by (intros ->; apply IH).
    assert (Hkeep : forall v, ln = Parsed v ->
               satisfies tenant module conversation_id event v = true ->
               exists kept : list json,
                 fst (for_each (history_body tenant module conversation_id event)
                        f (results ++ [v])) = results ++ kept
                 /\ Subseq kept (parsed_entries (ln :: f))
                 /\ Forall (fun entry =>
                              satisfies tenant module conversation_id event entry
                              = true) kept).
    { intros v -> Hv; destruct (IH (results ++ [v])) as (kept & E & Hsub & Hall).
      exists (v :: kept); rewrite E, <- app_assoc; split; [reflexivity|].
      split; [now apply Subseq_keep | now constructor]. }
    destruct ln as [| |v|]; simpl.
    + now apply Hpass.
    + now apply Hpass.
    + destruct (is_object v) eqn:Hobj.
      * destruct v; try discriminate.
        rewrite history_body_object.
        destruct (satisfies tenant module conversation_id event (JDict d)) eqn:Hs.
        -- now apply Hkeep.
        -- destruct (IH results) as (kept & E & Hsub & Hall).
           exists kept; split; [exact E|].
           split; [now apply Subseq_skip | exact Hall].
      * rewrite (history_body_other _ _ _ _ v results Hobj).
        destruct (constrains tenant || constrains module
                  || constrains conversation_id || constrains event) eqn:Hc.
        -- exact Hstop.
        -- apply Hkeep; [reflexivity | now apply satisfies_unconstrained].
    + exact Hstop.
Qed.

(** X1: whatever the log holds, the filters and the limit, the query returns
    records of the file, in file order and without repeating a line, and
    every one of them satisfies every filter that is supplied and not
    empty. *)
Theorem history_returns_matching_file_records :
  forall (f : list line) (tenant module conversation_id event : option string)
         (limit : Z),
    Subseq (get_session_history (Some f) tenant module conversation_id event limit)
           (parsed_entries f)
    /\ Forall (fun entry =>
                 satisfies tenant module conversation_id event entry = true)
              (get_session_history (Some f) tenant module conversation_id event
                 limit).
Proof.
  intros f tenant module conversation_id event limit.
  destruct (history_loop_sound tenant module conversation_id event f [])
    as (kept & E & Hsub & Hall).
  unfold get_session_history, scan_history; rewrite E; simpl.
  unfold slice_from; split.
  - eapply Subseq_trans; [apply Subseq_skipn | exact Hsub].
  - now apply Forall_skipn.
Qed.

(** X2: with a limit of at least 1 the query returns the last [limit]
    matches of the scan, at most [limit] of them, and all of them when there
    are no more than [limit]. *)
Theorem history_positive_limit :
  forall (f : list line) (tenant module conversation_id event : option string)
         (limit : Z),
    0 < limit ->
    get_session_history (Some f) tenant module conversation_id event limit
    = last_n (Z.to_nat limit) (fst (scan_history tenant module conversation_id event f))
    /\ Z.of_nat (List.length
                   (get_session_history (Some f) tenant module conversation_id
                      event limit)) <= limit
    /\ (limit < Z.of_nat (List.length
                            (fst (scan_history tenant module conversation_id event f))) ->
        Z.of_nat (List.length
                    (get_session_history (Some f) tenant module conversation_id
                       event limit)) = limit)
    /\ (Z.of_nat (List.length
                    (fst (scan_history tenant module conversation_id event f)))
        <= limit ->
        get_session_history (Some f) tenant module conversation_id event limit
        = fst (scan_history tenant module conversation_id event f)).
Proof.
  intros f tenant module conversation_id event limit Hpos.
  destruct (get_session_history_positive_limit f tenant module conversation_id
              event limit Hpos) as (E & Hle & Hfull & _).
  split; [exact E|]. split; [exact Hle|]. split; [exact Hfull|].
  intros Hall; rewrite E; unfold last_n.
  replace (List.length _ - Z.to_nat limit)%nat with O by lia.
  reflexivity.
Qed.

Lemma history_positive_limit_witness :
  get_session_history
    (Some [Parsed Samples.auth_C1; Parsed Fixtures.start_C2; Parsed Samples.killed_C1])
    None None None None 2
  = [Fixtures.start_C2; Samples.killed_C1].
Proof.
  exact (proj1 (history_positive_limit
                  [Parsed Samples.auth_C1; Parsed Fixtures.start_C2;
                   Parsed Samples.killed_C1]
                  None None None None 2 eq_refl)).
Defined.

(** X3: a blank line is passed over by both readers: for any filters, limit
    and surrounding lines they behave as on the log without it. *)
Theorem blank_line_is_skipped :
  forall (pre post : list line),
    (forall (tenant module conversation_id event : option string) (limit : Z),
        scan_history tenant module conversation_id event (pre ++ Blank :: post)
        = scan_history tenant module conversation_id event (pre ++ post)
        /\ get_session_history (Some (pre ++ Blank :: post))
             tenant module conversation_id event limit
           = get_session_history (Some (pre ++ post))
               tenant module conversation_id event limit)
    /\ (forall active_conversations : list string,
           get_orphan_sessions (Some (pre ++ Blank :: post)) active_conversations
           = get_orphan_sessions (Some (pre ++ post)) active_conversations).
Proof.
  intros pre post; split.
  - intros tenant module conversation_id event limit.
    assert (E : scan_history tenant module conversation_id event (pre ++ Blank :: post)
                = scan_history tenant module conversation_id event (pre ++ post))
      by (unfold scan_history; now apply for_each_skip).
    split; [exact E|]. unfold get_session_history; now rewrite E.
  - intros active.
    assert (E : reduce_sessions (pre ++ Blank :: post) = reduce_sessions (pre ++ post))
      by (unfold reduce_sessions; now apply for_each_skip).
    unfold get_orphan_sessions; now rewrite E.
Qed.

(** ** The orphan detector on any log *)

Lemma reduce_body_not_keyed (ln : line) (sessions : sessions_t) :
  keyed ln = false -> exists e, reduce_body ln sessions = Raise e.
Proof.
  destruct ln as [| |v|]; intros H.
  - discriminate.
  - discriminate.
  - destruct (is_object v) eqn:Hobj.
    + destruct v; try discriminate.
      rewrite reduce_body_object; unfold setitem; cbn [fst snd].
      simpl in H; rewrite H. now exists TypeError.
    + rewrite reduce_body_other by exact Hobj. now exists AttributeError.
  - now exists OSError.
Qed.

Lemma reduce_body_keyed (ln : line) (sessions : sessions_t) :
  keyed ln = true -> exists sessions', reduce_body ln sessions = Ok sessions'.
Proof.
  destruct ln as [| |v|]; intros H.
  - now exists sessions.
  - now exists sessions.
  - destruct v; try discriminate.
    rewrite reduce_body_object; unfold setitem; cbn [fst snd].
    simpl in H; rewrite H; eauto.
  - discriminate.
Qed.

Lemma reduce_loop_not_keyed (f : list line) :
  forallb keyed f = false ->
  forall s0, exists e, snd (for_each reduce_body f s0) = Some e.
Proof.
  induction f as [|ln f IH]; simpl; [discriminate|]; intros Hf s0.
  destruct (keyed ln) eqn:Hln.
  - destruct (reduce_body_keyed ln s0 Hln) as [s1 ->]. now apply IH.
  - destruct (reduce_body_not_keyed ln s0 Hln) as [e ->]. now exists e.
Qed.

(** The two ways a call of the detector can go. *)
Lemma get_orphan_sessions_cases (f : list line) (active : list string) :
  ((exists e, snd (reduce_sessions f) = Some e)
   /\ get_orphan_sessions (Some f) active = [])
  \/ (exists sessions,
         reduce_sessions f = (sessions, None)
         /\ well_formed sessions
         /\ (forall key, sessions_lookup sessions key = last_record f key)
         /\ get_orphan_sessions (Some f) active
            = filter (emits active) (map snd sessions)).
Proof.
  unfold get_orphan_sessions, reduce_sessions.
  destruct (for_each reduce_body f []) as [sessions [e|]] eqn:E.
  - left; split; [now exists e | reflexivity].
  - right; exists sessions.
    destruct (reduce_loop f _ _ E) as [Hlook Hwf].
    split; [reflexivity|]. split; [apply Hwf; exact I|].
    split.
    + intros key; rewrite Hlook. now destruct (last_record f key).
    + rewrite orphan_loop by (apply well_formed_objects, Hwf; exact I).
      reflexivity.
Qed.

Lemma last_record_in_file (f : list line) (key : session_key) (e : json) :
  last_record f key = Some e -> In e (parsed_entries f) /\ has_key key e = true.
Proof.
  unfold last_record; intros H; apply find_some in H as [Hin Hkey].
  split; [now apply in_rev | exact Hkey].
Qed.

(** X4: one line that is valid JSON but not an object, or an object whose
    tenant or module is a list or an object, or a line that cannot be read,
    anywhere in the log, makes the detector return the empty list. *)
Theorem bad_line_empties_orphan_report :
  forall (f : list line) (active_conversations : list string),
    forallb keyed f = false ->
    get_orphan_sessions (Some f) active_conversations = [].
Proof.
  intros f active Hf.
  destruct (reduce_loop_not_keyed f Hf []) as [e He].
  unfold get_orphan_sessions.
  fold (reduce_sessions f) in He.
  destruct (reduce_sessions f) as [sessions ex]; simpl in He; now subst ex.
Qed.

Lemma bad_line_empties_orphan_report_witness :
  get_orphan_sessions
    (Some [Parsed Samples.auth_C1;
           Parsed (JDict [("event", JStr "session_start");
                          ("tenant", JList [JStr "T2"]); ("module", JStr "M")])])
    [] = [].
Proof.
  exact (bad_line_empties_orphan_report
           [Parsed Samples.auth_C1;
            Parsed (JDict [("event", JStr "session_start");
                           ("tenant", JList [JStr "T2"]); ("module", JStr "M")])]
           [] eq_refl).
Defined.

(** X5: whatever the log holds, every record the detector returns is an
    object of the file, the last one under its key, with an event that is
    not terminal and a truthy conversation id that is not in the active
    list; no two returned records share a key. *)
Theorem orphans_are_sound :
  forall (f : list line) (active_conversations : list string),
    Forall (fun entry =>
              orphan f active_conversations entry
              /\ In entry (parsed_entries f)
              /\ is_object entry = true)
           (get_orphan_sessions (Some f) active_conversations)
    /\ distinct_keys (get_orphan_sessions (Some f) active_conversations).
Proof.
  intros f active.
  destruct (get_orphan_sessions_cases f active)
    as [[_ ->] | (sessions & _ & Hwf & Hlook & ->)].
  - split; constructor.
  - split; [|now apply distinct_keys_filter, well_formed_distinct].
    apply Forall_forall; intros entry Hin.
    apply filter_In in Hin as [Hin Hemit].
    apply in_map_iff in Hin as [[k e] [Heq Hin]]; simpl in Heq; subst e.
    pose proof (well_formed_lookup _ _ _ Hwf Hin) as Hk; rewrite Hlook in Hk.
    split; [|split].
    + split; [now exists k | now apply emits_iff].
    + now apply (last_record_in_file f k).
    + eapply has_key_object, well_formed_has_key; eauto.
Qed.

Lemma filter_filter {A} (p q : A -> bool) (xs : list A) :
  filter p (filter q xs) = filter (fun x => q x && p x) xs.
Proof.
  induction xs as [|x xs IH]; simpl; [reflexivity|].
  destruct (q x); simpl; [destruct (p x)|]; now rewrite IH.
Qed.

Lemma emits_app (a b : list string) (e : json) :
  emits (a ++ b) e = emits a e && negb (is_active b e).
Proof.
  unfold emits, is_active, in_strs; rewrite existsb_app.
  destruct (terminal e), (truthy _), (existsb _ a), (existsb _ b); reflexivity.
Qed.

(** X6: adding ids to the active list only removes records from the report:
    the report for [a ++ b] is the report for [a] without the records whose
    conversation id is in [b], on any log. *)
Theorem more_active_conversations_fewer_orphans :
  forall (session_log : option (list line)) (a b : list string),
    get_orphan_sessions session_log (a ++ b)
    = filter (fun entry => negb (is_active b entry))
             (get_orphan_sessions session_log a).
Proof.
  intros [f|] a b; [|reflexivity].
  destruct (get_orphan_sessions_cases f (a ++ b))
    as [[[e He] ->] | (sessions & Hscan & _ & _ & ->)].
  - destruct (get_orphan_sessions_cases f a)
      as [[_ ->] | (sessions & Hscan & _)]; [reflexivity|].
    rewrite Hscan in He; discriminate.
  - destruct (get_orphan_sessions_cases f a)
      as [[[e He] _] | (sessions' & Hscan' & _ & _ & ->)].
    + rewrite Hscan in He; discriminate.
    + rewrite Hscan in Hscan'; inversion Hscan'; subst sessions'.
      rewrite filter_filter; apply filter_ext; intros e; apply emits_app.
Qed.

(** ** Recording a session event, then reading *)

















(** ** The writers and the world *)

Lemma write_log_grows (p : path) (entry : list (string * json)) (w : world) :
  grows_only w (fst (_write_log p entry w)) p.
Proof.
  unfold grows_only, _write_log, lines.
  destruct (append_error w p) as [e|]; simpl.
  - split; [exists []; rewrite app_nil_r; split; [reflexivity | apply Nat.le_0_l]|].
    repeat split; auto. now eexists.
  - assert (Hpp : path_eqb p p = true) by now destruct p.
    rewrite Hpp; split.
    + exists [Parsed (JDict (dict_set entry "logged_at" (JStr (now_isoformat w))))].
      split; [now destruct (files w p) | apply Nat.le_refl].
    + repeat split; try discriminate.
      * intros q Hq; destruct q, p; simpl; congruence.
      * exists []; now rewrite app_nil_r.
Qed.

Lemma grows_only_refl (w : world) (p : path) : grows_only w w p.
Proof.
  unfold grows_only.
  split; [exists []; rewrite app_nil_r; split; [reflexivity | apply Nat.le_0_l]|].
  repeat split; auto. exists []; now rewrite app_nil_r.
Qed.

(** X10: the recorders only append: whatever the inputs and the disk, after
    [log_tool_call] the tool-call log is what it was with at most one line
    added at its end, and after [log_session_event] so is the session log;
    neither touches the other file, removes a file, or changes the clock or
    the disk's state. *)
Theorem recorders_only_append :
  forall (mcp_name tool_name : string) (arguments : list (string * json))
         (connection_name conversation_id result error : option string)
         (duration_ms : option Z)
         (event tenant module : string) (details : option (list (string * json)))
         (duration_seconds : option pyfloat) (w : world),
    grows_only w
      (fst (log_tool_call mcp_name tool_name arguments connection_name
              conversation_id result error duration_ms w)) LOG_FILE
    /\ grows_only w
         (fst (log_session_event event tenant module conversation_id details
                 duration_seconds w)) SESSION_LOG_FILE.
Proof.
  intros; split.
  - unfold log_tool_call.
    destruct (tool_call_entry _ _ _ _ _ _ _); simpl;
      [apply write_log_grows | apply grows_only_refl].
  - unfold log_session_event; apply write_log_grows.
Qed.


Lemma keys_dict_set_present {V} (d : list (string * V)) (k : string) (v : V) :
  contains d k = true -> keys (dict_set d k v) = keys d.
Proof.
  unfold contains, keys; induction d as [|[k0 v0] d IH]; simpl; [discriminate|].
  destruct (String.eqb_spec k0 k); simpl; [reflexivity|].
  intros H; now rewrite IH.
Qed.

Lemma keys_dict_set_absent {V} (d : list (string * V)) (k : string) (v : V) :
  contains d k = false -> keys (dict_set d k v) = keys d ++ [k].
Proof.
  unfold contains, keys; induction d as [|[k0 v0] d IH]; simpl; [reflexivity|].
  destruct (String.eqb_spec k0 k); simpl; [discriminate|].
  intros H; now rewrite IH.
Qed.

(** X12: [_write_log] stamps [logged_at] with the clock's reading, over any
    value the entry already holds under that name, and leaves every other
    field and the order of the fields as they are: an entry that has the
    field keeps its fields, one that has not gets it as its last field. *)
Theorem write_log_stamps_logged_at :
  forall (p : path) (entry : list (string * json)) (w : world),
    append_error w p = None ->
    exists rec,
      persisted w (fst (_write_log p entry w)) p rec
      /\ dict_get rec "logged_at" JNull = JStr (now_isoformat w)
      /\ (forall k dflt, k <> "logged_at" -> dict_get rec k dflt = dict_get entry k dflt)
      /\ (contains entry "logged_at" = true -> keys rec = keys entry)
      /\ (contains entry "logged_at" = false -> keys rec = keys entry ++ ["logged_at"]).
Proof.
  intros p entry w Hdisk; eexists; split; [now apply write_log_persists|].
  split; [apply dict_get_set_same|].
  split; [intros k dflt Hk; apply dict_get_set_other; congruence|].
  split; [apply keys_dict_set_present | apply keys_dict_set_absent].
Qed.

Lemma write_log_stamps_logged_at_witness :
  exists rec,
    persisted Samples.fresh
      (fst (_write_log SESSION_LOG_FILE
              [("logged_at", JStr "1999-12-31T23:59:59"); ("event", JStr "x")]
              Samples.fresh))
      SESSION_LOG_FILE rec
    /\ dict_get rec "logged_at" JNull = JStr "2025-01-01T00:00:00"
    /\ (forall k dflt,
           k <> "logged_at" ->
           dict_get rec k dflt
           = dict_get [("logged_at", JStr "1999-12-31T23:59:59"); ("event", JStr "x")]
               k dflt)
    /\ (contains [("logged_at", JStr "1999-12-31T23:59:59"); ("event", JStr "x")]
          "logged_at" = true ->
        keys rec
        = keys [("logged_at", JStr "1999-12-31T23:59:59"); ("event", JStr "x")])
    /\ (contains [("logged_at", JStr "1999-12-31T23:59:59"); ("event", JStr "x")]
          "logged_at" = false ->
        keys rec
        = keys [("logged_at", JStr "1999-12-31T23:59:59"); ("event", JStr "x")]
          ++ ["logged_at"]).
Proof.
  exact (write_log_stamps_logged_at SESSION_LOG_FILE
           [("logged_at", JStr "1999-12-31T23:59:59"); ("event", JStr "x")]
           Samples.fresh eq_refl).
Defined.





(** X14: when the arguments hold a command that is neither a [str] nor a
    list (a number, a boolean, null, an object), [log_tool_call] raises
    [TypeError] and leaves the world as it was: nothing is logged and
    nothing is reported. *)
Theorem log_tool_call_raises_on_unsliceable_command :
  forall (mcp_name tool_name : string) (arguments : list (string * json))
         (connection_name conversation_id result error : option string)
         (duration_ms : option Z) (w : world),
    contains arguments "command" = true ->
    (forall s, dict_get arguments "command" (JStr "") <> JStr s) ->
    (forall l, dict_get arguments "command" (JStr "") <> JList l) ->
    log_tool_call mcp_name tool_name arguments connection_name conversation_id
      result error duration_ms w = (w, Raise TypeError).
Proof. intros; now apply log_tool_call_raises. Qed.

Lemma log_tool_call_raises_on_unsliceable_command_witness :
  log_tool_call "mm" "run" [("connection", JStr "ForIT-GA"); ("command", JNull)]
    (Some "ForIT-GA") None None None (Some 3) Samples.fresh
  = (Samples.fresh, Raise TypeError).
Proof.
  apply log_tool_call_raises_on_unsliceable_command.
  - reflexivity.
  - intros s; discriminate.
  - intros l; discriminate.
Defined.

Lemma substring_0_prefix (n : nat) (s : string) :
  prefix (substring 0 n s) s = true.
Proof.
  revert s; induction n as [|n IH]; intros [|c s]; simpl; auto.
  destruct (ascii_dec c c); [apply IH | congruence].
Qed.

Lemma substring_0_whole (n : nat) (s : string) :
  (String.length s <= n)%nat -> substring 0 n s = s.
Proof.
  revert s; induction n as [|n IH]; intros [|c s]; simpl; auto.
  - lia.
  - intros H; f_equal; apply IH; lia.
Qed.

(** X15: on a disk that takes the append, a [str] command of any length is
    persisted under [command_preview] as a prefix of itself of at most 100
    characters (so a command of up to 100 characters is persisted whole),
    and a list command as its first 100 elements. *)
Theorem command_preview_is_a_bounded_prefix :
  forall (mcp_name tool_name : string) (arguments : list (string * json))
         (connection_name conversation_id result error : option string)
         (duration_ms : option Z) (w : world),
    append_error w LOG_FILE = None ->
    contains arguments "command" = true ->
    (forall s,
        dict_get arguments "command" (JStr "") = JStr s ->
        exists rec,
          persisted w (fst (log_tool_call mcp_name tool_name arguments
                              connection_name conversation_id result error
                              duration_ms w)) LOG_FILE rec
          /\ dict_get rec "command_preview" JNull = JStr (substring 0 100 s)
          /\ String.length (substring 0 100 s) = Nat.min 100 (String.length s)
          /\ prefix (substring 0 100 s) s = true
          /\ ((String.length s <= 100)%nat -> substring 0 100 s = s))
    /\ (forall l,
           dict_get arguments "command" (JStr "") = JList l ->
           exists rec,
             persisted w (fst (log_tool_call mcp_name tool_name arguments
                                 connection_name conversation_id result error
                                 duration_ms w)) LOG_FILE rec
             /\ dict_get rec "command_preview" JNull = JList (firstn 100 l)).
Proof.
  intros mcp_name tool_name arguments connection_name conversation_id result
         error duration_ms w Hdisk Hin.
  split.
  - intros s Hs; unfold log_tool_call, tool_call_entry; rewrite Hin, Hs; simpl.
    eexists; split; [now apply write_log_persists|].
    split; [reflexivity|].
    split; [apply substring_0_length|].
    split; [apply substring_0_prefix | apply substring_0_whole].
  - intros l Hl; unfold log_tool_call, tool_call_entry; rewrite Hin, Hl; simpl.
    eexists; split; [now apply write_log_persists | reflexivity].
Qed.

Lemma command_preview_is_a_bounded_prefix_witness :
  exists rec,
    persisted Samples.fresh
      (fst (log_tool_call "mm" "run" [("command", JStr "Get-Mailbox")] None None
              None None None Samples.fresh)) LOG_FILE rec
    /\ dict_get rec "command_preview" JNull = JStr (substring 0 100 "Get-Mailbox")
    /\ String.length (substring 0 100 "Get-Mailbox")
       = Nat.min 100 (String.length "Get-Mailbox")
    /\ prefix (substring 0 100 "Get-Mailbox") "Get-Mailbox" = true
    /\ ((String.length "Get-Mailbox" <= 100)%nat ->
        substring 0 100 "Get-Mailbox" = "Get-Mailbox").
Proof.
  exact (proj1 (command_preview_is_a_bounded_prefix "mm" "run"
                  [("command", JStr "Get-Mailbox")] None None None None None
                  Samples.fresh eq_refl eq_refl)
           "Get-Mailbox" eq_refl).
Defined.

(** ** The caller *)

(** On the values the annotations of [log_tool_call] allow for
    [connection_name], the two readings of the function agree. *)
Lemma log_tool_call_with_typed (mcp_name tool_name : string)
    (arguments : list (string * json))
    (connection_name conversation_id result error : option string)
    (duration_ms : option Z) (w : world) :
  log_tool_call_with mcp_name tool_name arguments (of_opt_str connection_name)
    conversation_id result error duration_ms w
  = log_tool_call mcp_name tool_name arguments connection_name conversation_id
      result error duration_ms w.
Proof.
  unfold log_tool_call_with, log_tool_call, tool_call_entry.
  destruct (if contains arguments "command" then _ else _); reflexivity.
Qed.

Lemma log_tool_call_with_built (mcp_name tool_name : string)
    (arguments : list (string * json)) (connection_name : json)
    (conversation_id result error : option string)
    (duration_ms : option Z) (w : world) :
  contains arguments "command" = false
  \/ (exists s, dict_get arguments "command" (JStr "") = JStr s)
  \/ (exists l, dict_get arguments "command" (JStr "") = JList l) ->
  exists preview,
    log_tool_call_with mcp_name tool_name arguments connection_name
      conversation_id result error duration_ms w
    = _write_log LOG_FILE
        [ ("type", JStr "tool_call");
          ("mcp", JStr mcp_name);
          ("tool", JStr tool_name);
          ("connection", connection_name);
          ("conversation_id", of_opt_str conversation_id);
          ("arguments",
           JDict (filter (fun kv => negb (fst kv =? "command")%string) arguments));
          ("command_preview", preview);
          ("duration_ms", of_opt_int duration_ms);
          ("success", JBool (is_None error));
          ("error", of_opt_str error) ] w.
Proof.
  intros H; unfold log_tool_call_with, tool_call_entry.
  destruct (contains arguments "command").
  - destruct H as [H | [[s H] | [l H]]]; [discriminate | | ];
      rewrite H; simpl; now eexists.
  - simpl; now eexists.
Qed.

Lemma log_tool_call_with_raises (mcp_name tool_name : string)
    (arguments : list (string * json)) (connection_name : json)
    (conversation_id result error : option string)
    (duration_ms : option Z) (w : world) :
  contains arguments "command" = true ->
  (forall s, dict_get arguments "command" (JStr "") <> JStr s) ->
  (forall l, dict_get arguments "command" (JStr "") <> JList l) ->
  log_tool_call_with mcp_name tool_name arguments connection_name conversation_id
    result error duration_ms w = (w, Raise TypeError).
Proof.
  intros Hin Hs Hl; unfold log_tool_call_with, tool_call_entry; rewrite Hin.
  destruct (dict_get arguments "command" (JStr "")) eqn:E; simpl; try reflexivity.
  - now elim (Hs s).
  - now elim (Hl l).
Qed.

Section ServerProperties.

Variable str_lower : string -> string.
Variable str_of_exn : exn -> string.
Variable _call_tool_impl :
  string -> list (string * json) -> outcome (list TextContent).

Lemma call_tool_try_spec (name : string) (arguments : list (string * json)) :
  exists result_summary,
    call_tool_try str_lower str_of_exn _call_tool_impl name arguments
    = (_call_tool_impl name arguments,
       logged_error str_lower str_of_exn (_call_tool_impl name arguments), result_summary).
Proof.
  unfold call_tool_try, logged_error.
  destruct (_call_tool_impl name arguments) as [[|first rest]|e];
    try (now eexists).
  destruct (str_contains "error" _); now eexists.
Qed.

(** X16: when the arguments hold no command, or one that is a [str] or a
    list, [call_tool] hands on what the dispatch function returned or
    raised, unchanged, on every disk, and the tool-call log only grows; on a
    disk that takes the append it adds exactly one record, with [mcp] "mm",
    the tool's name, the value of the [connection] argument (null when there
    is none), the elapsed milliseconds, the arguments without their command,
    and a null [conversation_id]. *)
Theorem call_tool_logs_and_hands_on :
  forall (name : string) (arguments : list (string * json)) (elapsed_ms : Z)
         (w : world),
    contains arguments "command" = false
    \/ (exists s, dict_get arguments "command" (JStr "") = JStr s)
    \/ (exists l, dict_get arguments "command" (JStr "") = JList l) ->
    snd (call_tool str_lower str_of_exn _call_tool_impl name arguments elapsed_ms w)
    = _call_tool_impl name arguments
    /\ grows_only w
         (fst (call_tool str_lower str_of_exn _call_tool_impl name arguments
                 elapsed_ms w)) LOG_FILE
    /\ (append_error w LOG_FILE = None ->
        exists rec,
          persisted w
            (fst (call_tool str_lower str_of_exn _call_tool_impl name arguments
                    elapsed_ms w)) LOG_FILE rec
          /\ dict_get rec "type" JNull = JStr "tool_call"
          /\ dict_get rec "mcp" JNull = JStr "mm"
          /\ dict_get rec "tool" JNull = JStr name
          /\ dict_get rec "connection" JNull = dict_get arguments "connection" JNull
          /\ dict_get rec "conversation_id" JNull = JNull
          /\ dict_get rec "arguments" JNull
             = JDict (filter (fun kv => negb (fst kv =? "command")%string) arguments)
          /\ dict_get rec "duration_ms" JNull = JInt elapsed_ms
          /\ dict_get rec "logged_at" JNull = JStr (now_isoformat w)).
Proof.
  intros name arguments elapsed_ms w Hcmd; unfold call_tool.
  destruct (call_tool_try_spec name arguments) as [summary ->].
  destruct (log_tool_call_with_built "mm" name arguments
              (dict_get arguments "connection" JNull) None summary
              (logged_error str_lower str_of_exn (_call_tool_impl name arguments)) (Some elapsed_ms)
              w Hcmd) as [preview ->].
  rewrite write_log_eq; cbn [fst snd].
  split; [reflexivity|]. split; [apply write_log_grows|].
  intros Hdisk; eexists; split; [now apply write_log_persists|].
  repeat split.
Qed.

(** X17: on a disk that takes the append, and with no command or one that is
    a [str] or a list, the record [call_tool] logs tells how the call went:
    after an exception [error] is the exception's text; after a reply whose
    first text, cut to 100 characters and lowercased, contains "error",
    [error] is that cut text; after any other reply, also an empty one,
    [error] is null; and [success] is true exactly when [error] is null. *)
Theorem call_tool_logs_the_outcome :
  forall (name : string) (arguments : list (string * json)) (elapsed_ms : Z)
         (w : world),
    append_error w LOG_FILE = None ->
    contains arguments "command" = false
    \/ (exists s, dict_get arguments "command" (JStr "") = JStr s)
    \/ (exists l, dict_get arguments "command" (JStr "") = JList l) ->
    exists rec,
      persisted w
        (fst (call_tool str_lower str_of_exn _call_tool_impl name arguments
                elapsed_ms w)) LOG_FILE rec
      /\ dict_get rec "error" JNull
         = of_opt_str (logged_error str_lower str_of_exn (_call_tool_impl name arguments))
      /\ dict_get rec "success" JNull
         = JBool (is_None (logged_error str_lower str_of_exn (_call_tool_impl name arguments)))
      /\ (forall e, _call_tool_impl name arguments = Raise e ->
                    dict_get rec "error" JNull = JStr (str_of_exn e)
                    /\ dict_get rec "success" JNull = JBool false)
      /\ (_call_tool_impl name arguments = Ok [] ->
          dict_get rec "error" JNull = JNull
          /\ dict_get rec "success" JNull = JBool true)
      /\ (forall first rest,
             _call_tool_impl name arguments = Ok (first :: rest) ->
             if str_contains "error" (str_lower (substring 0 100 (text first)))
             then dict_get rec "error" JNull = JStr (substring 0 100 (text first))
                  /\ dict_get rec "success" JNull = JBool false
             else dict_get rec "error" JNull = JNull
                  /\ dict_get rec "success" JNull = JBool true).
Proof.
  intros name arguments elapsed_ms w Hdisk Hcmd; unfold call_tool.
  destruct (call_tool_try_spec name arguments) as [summary ->].
  destruct (log_tool_call_with_built "mm" name arguments
              (dict_get arguments "connection" JNull) None summary
              (logged_error str_lower str_of_exn (_call_tool_impl name arguments)) (Some elapsed_ms)
              w Hcmd) as [preview ->].
  rewrite write_log_eq; cbn [fst snd].
  eexists; split; [now apply write_log_persists|].
  split; [reflexivity|]. split; [reflexivity|].
  cbn [dict_set dict_get String.eqb Ascii.eqb Bool.eqb].
  split; [|split].
  - intros e ->; split; reflexivity.
  - intros ->; split; reflexivity.
  - intros first rest ->; unfold logged_error.
    destruct (str_contains "error" _); split; reflexivity.
Qed.

(** X18: when the arguments hold a command that is neither a [str] nor a
    list, [call_tool] raises [TypeError] and logs nothing, whatever the
    dispatch function returned or raised: the exception of the logger in
    the [finally] suite replaces the tool's outcome. *)
Theorem call_tool_outcome_lost_to_logger :
  forall (name : string) (arguments : list (string * json)) (elapsed_ms : Z)
         (w : world),
    contains arguments "command" = true ->
    (forall s, dict_get arguments "command" (JStr "") <> JStr s) ->
    (forall l, dict_get arguments "command" (JStr "") <> JList l) ->
    call_tool str_lower str_of_exn _call_tool_impl name arguments elapsed_ms w
    = (w, Raise TypeError).
Proof.
  intros name arguments elapsed_ms w Hin Hs Hl; unfold call_tool.
  destruct (call_tool_try_spec name arguments) as [summary ->].
  now rewrite log_tool_call_with_raises.
Qed.

End ServerProperties.

Lemma call_tool_logs_and_hands_on_witness :
  snd (call_tool Fixtures.lower Fixtures.exn_text (Fixtures.answer "(no output)")
         "run" [("connection", JStr "ForIT-GA"); ("module", JStr "exo");
                ("command", JStr "Get-Mailbox")] 1500 Samples.read_only)
  = Ok [mkTextContent "(no output)"].
Proof.
  exact (proj1 (call_tool_logs_and_hands_on Fixtures.lower Fixtures.exn_text
                  (Fixtures.answer "(no output)") "run"
                  [("connection", JStr "ForIT-GA"); ("module", JStr "exo");
                   ("command", JStr "Get-Mailbox")] 1500 Samples.read_only
                  (or_intror (or_introl (ex_intro _ "Get-Mailbox" eq_refl))))).
Defined.

Lemma call_tool_logs_the_outcome_witness :
  exists rec,
    persisted Samples.fresh
      (fst (call_tool Fixtures.lower Fixtures.exn_text
              (Fixtures.answer "Unknown ERROR from pool") "run" [] 7 Samples.fresh))
      LOG_FILE rec
    /\ dict_get rec "error" JNull = JStr "Unknown ERROR from pool"
    /\ dict_get rec "success" JNull = JBool false.
Proof.
  destruct (call_tool_logs_the_outcome Fixtures.lower Fixtures.exn_text
              (Fixtures.answer "Unknown ERROR from pool") "run" [] 7 Samples.fresh
              eq_refl (or_introl eq_refl))
    as (rec & Hpers & Herr & Hsucc & _).
  exists rec; split; [exact Hpers|]. split; [exact Herr | exact Hsucc].
Defined.

Lemma call_tool_outcome_lost_to_logger_witness :
  call_tool Fixtures.lower Fixtures.exn_text (Fixtures.answer "(no output)") "run"
    [("connection", JStr "ForIT-GA"); ("module", JStr "exo"); ("command", JInt 5)]
    1500 Samples.fresh
  = (Samples.fresh, Raise TypeError).
Proof.
  apply call_tool_outcome_lost_to_logger.
  - reflexivity.
  - intros s; discriminate.
  - intros l; discriminate.
Defined.
